(** * The GPTQ quantization notebook, as a program over its libraries

    The repository is one Jupyter notebook, [optimize-llama-gptq-optimum.ipynb].
    Its code cells are straight-line Python around calls into optimum,
    transformers, torch, json and the shell.  This development embeds the
    cells as programs of a small state/exception/trace monad:

    - the libraries are a parameter (a [Platform]): every call goes to the
      platform's handler, which may change the world, return any value or
      raise any exception;
    - what the notebook itself does is written out: the order of the calls,
      the arguments, attribute and item assignments, file opening and JSON
      dumping, the arithmetic of the latency figure, the expansion of the
      shell command line;
    - every operation is recorded, with its result, in the trace of the
      run, so that order, counts and the fate of exceptions can be stated.

    Files are kept by path, each with the text or JSON documents written
    into it; whether a path may be opened at all is the platform's to say. *)

From Stdlib Require Import ZArith String Ascii List Floats Uint63 DecimalString.
From stdpp Require Import gmap strings list.

Set Warnings "-inexact-float,-register-all".
Local Open Scope string_scope.
Local Open Scope list_scope.

(** ** Python values *)

Module Py.

(** Exceptions the notebook's own operations raise, and [LibraryError] for
    whatever a library raises (out of memory, missing model, ...). *)
Inductive exn : Type :=
| ZeroDivisionError
| TypeError
| IndexError
| KeyError (key : string)
| AttributeError (name : string)
| FileNotFoundError (path : string)
| JSONDecodeError
| LibraryError (kind : string).

Inductive result (A : Type) : Type :=
| Ok (a : A)
| Raise (e : exn).
Arguments Ok {A} a.
Arguments Raise {A} e.

Definition is_ok {A} (r : result A) : bool :=
  match r with Ok _ => true | Raise _ => false end.

(** A Python [float] is an IEEE binary64, a [dict] keeps insertion order, an
    object of a library class is a handle into the heap, a library constant
    such as [torch.float16] is known by its qualified name, and a file
    object remembers the path and mode it was opened with. *)
Inductive pyval : Type :=
| PNone
| PBool (b : bool)
| PInt (z : Z)
| PFloat (f : float)
| PStr (s : string)
| PList (l : list pyval)
| PDict (d : list (string * pyval))
| PObj (h : N)
| PSym (qualname : string)
| PFile (path : string) (mode : string).

(** *** dictionaries: [d[k]] and [d[k] = v] *)

Fixpoint dict_get (d : list (string * pyval)) (k : string) : option pyval :=
  match d with
  | [] => None
  | (k', v) :: d' => if String.eqb k' k then Some v else dict_get d' k
  end.

(** Assignment to a key that is present keeps its position; a new key goes
    to the end. *)
Fixpoint dict_set (d : list (string * pyval)) (k : string) (v : pyval)
  : list (string * pyval) :=
  match d with
  | [] => [(k, v)]
  | (k', v') :: d' =>
      if String.eqb k' k then (k', v) :: d' else (k', v') :: dict_set d' k v
  end.


(** *** subscripts, slices, [len] *)

Definition str_drop (n : nat) (s : string) : string :=
  String.substring n (String.length s - n) s.

(** An index counts from the end when it is negative. *)
Definition norm_index (len : nat) (i : Z) : option nat :=
  let j := if (i <? 0)%Z then (i + Z.of_nat len)%Z else i in
  if ((0 <=? j) && (j <? Z.of_nat len))%Z then Some (Z.to_nat j) else None.

Definition getitem (c k : pyval) : result pyval :=
  match c, k with
  | PDict d, PStr key =>
      match dict_get d key with Some v => Ok v | None => Raise (KeyError key) end
  | PList l, PInt i =>
      match norm_index (length l) i with
      | Some n => match l !! n with Some v => Ok v | None => Raise IndexError end
      | None => Raise IndexError
      end
  | PStr s, PInt i =>
      match norm_index (String.length s) i with
      | Some n => Ok (PStr (String.substring n 1 s))
      | None => Raise IndexError
      end
  | _, _ => Raise TypeError
  end.

Definition setitem (c k v : pyval) : result pyval :=
  match c, k with
  | PDict d, PStr key => Ok (PDict (dict_set d key v))
  | PList l, PInt i =>
      match norm_index (length l) i with
      | Some n => Ok (PList (<[n := v]> l))
      | None => Raise IndexError
      end
  | _, _ => Raise TypeError
  end.

(** [c[k1][k2] = v].  Python fetches the inner container [c[k1]] and stores
    into it in place; the outer container holds that same object, so the
    outer value read afterwards shows the store.  With values instead of
    references, the updated inner container is put back under [k1]. *)
Definition setitem2 (c k1 k2 v : pyval) : result pyval :=
  match getitem c k1 with
  | Raise e => Raise e
  | Ok inner =>
      match setitem inner k2 v with
      | Raise e => Raise e
      | Ok inner' => setitem c k1 inner'
      end
  end.

(** [c[n:]] *)
Definition slice_from (c : pyval) (n : nat) : result pyval :=
  match c with
  | PStr s => Ok (PStr (str_drop n s))
  | PList l => Ok (PList (drop n l))
  | _ => Raise TypeError
  end.

Definition py_len (c : pyval) : result Z :=
  match c with
  | PStr s => Ok (Z.of_nat (String.length s))
  | PList l => Ok (Z.of_nat (length l))
  | PDict d => Ok (Z.of_nat (length d))
  | _ => Raise TypeError
  end.

(** *** arithmetic *)

(** [float(n)], for the integers of magnitude below 2^63 that the notebook
    meets (token counts, byte counts, 1000, 1024**3). *)
Definition float_of_Z (z : Z) : float :=
  if (z <? 0)%Z then (- PrimFloat.of_uint63 (Uint63.of_Z (- z)))%float
  else PrimFloat.of_uint63 (Uint63.of_Z z).

Definition py_sub (a b : pyval) : result pyval :=
  match a, b with
  | PFloat x, PFloat y => Ok (PFloat (x - y)%float)
  | PFloat x, PInt y => Ok (PFloat (x - float_of_Z y)%float)
  | PInt x, PFloat y => Ok (PFloat (float_of_Z x - y)%float)
  | PInt x, PInt y => Ok (PInt (x - y)%Z)
  | _, _ => Raise TypeError
  end.

(** [a / n] with an integer divisor: true division, a float when it
    succeeds, [ZeroDivisionError] when [n] is zero whatever the numerator.
    (For two integers Python rounds the exact quotient once; below 2^53
    that is the quotient of the two floats.) *)
Definition py_truediv (a : pyval) (n : Z) : result float :=
  match a with
  | PFloat x =>
      if (n =? 0)%Z then Raise ZeroDivisionError else Ok (x / float_of_Z n)%float
  | PInt x =>
      if (n =? 0)%Z then Raise ZeroDivisionError
      else Ok (float_of_Z x / float_of_Z n)%float
  | _ => Raise TypeError
  end.

(** *** what [json.dump] accepts *)

Fixpoint json_serializable (v : pyval) : bool :=
  match v with
  | PList l => forallb json_serializable l
  | PDict d => forallb (fun kv => match kv with (_, x) => json_serializable x end) d
  | PObj _ | PSym _ | PFile _ _ => false
  | PNone | PBool _ | PInt _ | PFloat _ | PStr _ => true
  end.

(** *** [os.path.join] of two components (posixpath) *)

Definition ends_with_slash (s : string) : bool :=
  match String.get (String.length s - 1) s with
  | Some c => Ascii.eqb c "/"%char
  | None => false
  end.

Definition path_join (a b : string) : string :=
  match String.get 0 b with
  | Some "/"%char => b
  | _ => if (String.eqb a "") || ends_with_slash a then a +:+ b
         else a +:+ "/" +:+ b
  end.

Definition dec (z : Z) : string := NilZero.string_of_int (Z.to_int z).

End Py.
Export Py.

(** ** The world, the platform and the monad of cells *)

(** A file holds what was written into it since it was last truncated: raw
    text, or the JSON document of a [json.dump].  [json.load] reads back the
    value of a file that holds exactly one document. *)
Inductive chunk : Type :=
| Raw (text : string)
| Doc (v : pyval).

(** The heap maps the handle of a library object to its instance
    attributes; [ext] is whatever else the libraries keep (GPU memory, the
    clock, the random generator). *)
Record world {X : Type} : Type := World {
  heap : gmap N (gmap string pyval);
  fs : gmap string (list chunk);
  ext : X
}.
Arguments world X : clear implicits.
Arguments World {X} heap fs ext.

(** What is called: a function or class by its qualified name as the
    notebook writes it, a method or callable attribute of an object
    ([self.name(...)]), or the object itself ([self(...)]). *)
Inductive callee : Type :=
| Func (qualname : string)
| Method (self : pyval) (name : string)
| Invoke (self : pyval).

Record call : Type := Call {
  target : callee;
  args : list pyval;
  kwargs : list (string * pyval)
}.

Record event : Type := Ev {
  ev_call : call;
  ev_res : result pyval
}.

Class Platform : Type := {
  ext_state : Type;
  (** a call into a library, the [import] of a module included *)
  lib : call -> world ext_state -> result pyval * world ext_state;
  (** an IPython [!command]: its exit status is not an exception *)
  shell : string -> world ext_state -> world ext_state;
  (** [del name]: the reference is dropped, finalizers may run *)
  finalize : pyval -> world ext_state -> world ext_state;
  (** the operating system may refuse to open a path in a mode
      (permissions, a missing folder), with the exception it gives *)
  refuses : string -> string -> world ext_state -> option exn;
  (** [round(x, ndigits)], [repr] and [format(x, ".2f")] of the runtime *)
  round_ndigits : float -> Z -> float;
  repr : pyval -> string;
  format_2f : float -> string
}.

Record outcome {X A : Type} : Type := Out {
  res : result A;
  final : world X;
  trace : list event
}.
Arguments outcome X A : clear implicits.
Arguments Out {X A} res final trace.

Section Monad.
Context `{P : Platform}.

Definition M (A : Type) : Type := world ext_state -> outcome ext_state A.

Definition ret {A} (a : A) : M A := fun w => Out (Ok a) w [].

Definition raise {A} (e : exn) : M A := fun w => Out (Raise e) w [].

(** An exception ends the computation: nothing catches it. *)
Definition bind {A B} (m : M A) (f : A -> M B) : M B := fun w =>
  let o := m w in
  match res o with
  | Raise e => Out (Raise e) (final o) (trace o)
  | Ok a => let o' := f a (final o) in Out (res o') (final o') (trace o ++ trace o')
  end.

(** A pure Python operation that may raise. *)
Definition lift {A} (r : result A) : M A :=
  match r with Ok a => ret a | Raise e => raise e end.

(** One observable operation: it is recorded with its result. *)
Definition prim (c : call) (act : world ext_state -> result pyval * world ext_state)
  : M pyval := fun w =>
  let '(r, w') := act w in Out r w' [Ev c r].

End Monad.

Notation "x <- m ;; k" := (bind m (fun x => k))
  (at level 20, m at level 99, k at level 200, format "'[v' x  <-  m  ;; '/' k ']'").
Notation "' pat <- m ;; k" := (bind m (fun x => match x with pat => k end))
  (at level 20, pat pattern, m at level 99, k at level 200,
   format "'[v' ' pat  <-  m  ;; '/' k ']'").
Notation "'run!' m ;; k" := (bind m (fun _ => k))
  (at level 20, m at level 99, k at level 200, format "'[v' 'run!'  m  ;; '/' k ']'").

(** ** Built-in operations of the Python runtime *)

Definition attr {X} (w : world X) (h : N) (name : string) : option pyval :=
  match heap w !! h with Some o => o !! name | None => None end.

Definition set_attr {X} (h : N) (name : string) (v : pyval) (w : world X) : world X :=
  World (<[h := <[name := v]> (default ∅ (heap w !! h))]> (heap w)) (fs w) (ext w).

Definition write_file {X} (path : string) (content : list chunk) (w : world X)
  : world X :=
  World (heap w) (<[path := content]> (fs w)) (ext w).

Definition append_file {X} (path : string) (c : chunk) (w : world X) : world X :=
  write_file path (default [] (fs w !! path) ++ [c]) w.

Arguments attr : simpl never.
Arguments set_attr : simpl never.
Arguments write_file : simpl never.
Arguments append_file : simpl never.

Section Builtins.
Context `{P : Platform}.

Definition libcall (t : callee) (a : list pyval) (kw : list (string * pyval))
  : M pyval :=
  prim (Call t a kw) (lib (Call t a kw)).

(** [import m] and [from m import ...] run the module [m]: a library call. *)
Definition import_ (m : string) : M pyval := libcall (Func "import") [PStr m] [].

(** [!cmd] *)
Definition sh (cmd : string) : M pyval :=
  prim (Call (Func "!") [PStr cmd] []) (fun w => (Ok PNone, shell cmd w)).

Definition print (s : string) : M pyval :=
  prim (Call (Func "print") [PStr s] []) (fun w => (Ok PNone, w)).

(** [del name], where [name] is bound to [v] *)
Definition del (v : pyval) : M pyval :=
  prim (Call (Func "del") [v] []) (fun w => (Ok PNone, finalize v w)).

(** [o.name = v]: a store into the instance attributes of [o] *)
Definition setattr (o : pyval) (name : string) (v : pyval) : M pyval :=
  prim (Call (Func "setattr") [o; PStr name; v] [])
    (fun w => match o with
              | PObj h => (Ok PNone, set_attr h name v w)
              | _ => (Raise (AttributeError name), w)
              end).

(** What [open(path, mode, encoding="utf-8")] does to the world, for the two
    modes the notebook uses: ["w"] creates or truncates the file, any other
    mode is read as ["r"] and needs the file to exist. *)
Definition open_action (path mode : string) (w : world ext_state)
  : result pyval * world ext_state :=
  match refuses path mode w with
  | Some e => (Raise e, w)
  | None =>
      if String.eqb mode "w" then (Ok (PFile path mode), write_file path [] w)
      else match fs w !! path with
           | Some _ => (Ok (PFile path mode), w)
           | None => (Raise (FileNotFoundError path), w)
           end
  end.

Definition open_ (path mode : string) : M pyval :=
  prim (Call (Func "open") [PStr path; PStr mode] [("encoding", PStr "utf-8")])
    (open_action path mode).

(** The [__exit__] of a file object closes it; it returns [None], so an
    exception of the body goes on.  ([__enter__] returns the file itself
    and is not recorded.) *)
Definition close_ (f : pyval) : M pyval :=
  prim (Call (Method f "__exit__") [] []) (fun w => (Ok PNone, w)).

(** [with open(path, mode, encoding="utf-8") as f: body].  The file is
    closed on the way out, whether the body returned or raised, and the
    body's result, exception included, is the statement's. *)
Definition with_open {A} (path mode : string) (body : pyval -> M A) : M A :=
  fun w =>
    let o := open_ path mode w in
    match res o with
    | Raise e => Out (Raise e) (final o) (trace o)
    | Ok f =>
        let ob := body f (final o) in
        let oc := close_ f (final ob) in
        Out (res ob) (final oc) (trace o ++ trace ob ++ trace oc)
    end.

(** [json.dump(obj, f, indent=n)] *)
Definition json_dump (obj f : pyval) (indent : Z) : M pyval :=
  prim (Call (Func "json.dump") [obj; f] [("indent", PInt indent)])
    (fun w =>
       match f with
       | PFile path mode =>
           if String.eqb mode "w" then
             if json_serializable obj then (Ok PNone, append_file path (Doc obj) w)
             else (Raise TypeError, w)
           else (Raise (LibraryError "io.UnsupportedOperation"), w)
       | _ => (Raise (AttributeError "write"), w)
       end).

(** [json.load(f)] *)
Definition json_load (f : pyval) : M pyval :=
  prim (Call (Func "json.load") [f] [])
    (fun w =>
       match f with
       | PFile path mode =>
           if String.eqb mode "w" then
             (Raise (LibraryError "io.UnsupportedOperation"), w)
           else match fs w !! path with
                | Some [Doc v] => (Ok v, w)
                | _ => (Raise JSONDecodeError, w)
                end
       | _ => (Raise (AttributeError "read"), w)
       end).

(** [str(v)], as an f-string field and IPython's [$name] use it *)
Definition py_str (v : pyval) : string :=
  match v with
  | PStr s => s
  | PInt z => dec z
  | _ => repr v
  end.

End Builtins.

(** ** IPython's [$name] expansion and the words of a command line *)

Module Shell.
Section Expand.
Context `{P : Platform}.

Definition is_ident_char (c : ascii) : bool :=
  let n := nat_of_ascii c in
  ((48 <=? n) && (n <=? 57) || (65 <=? n) && (n <=? 90)
   || (97 <=? n) && (n <=? 122) || (n =? 95))%nat.

(** A name that the namespace does not bind is left as it stands. *)
Definition subst_name (ns : list (string * pyval)) (name : option string) : string :=
  match name with
  | None => ""
  | Some n => match dict_get ns n with
              | Some v => py_str v
              | None => "$" +:+ n
              end
  end.

(** [name] is the identifier being read after a [$], if any. *)
Fixpoint expand_from (ns : list (string * pyval)) (name : option string)
  (s : string) : string :=
  match s with
  | EmptyString => subst_name ns name
  | String c s' =>
      match name with
      | Some n =>
          if is_ident_char c then expand_from ns (Some (n +:+ String c "")) s'
          else subst_name ns name +:+
               (if Ascii.eqb c "$" then expand_from ns (Some "") s'
                else String c (expand_from ns None s'))
      | None =>
          if Ascii.eqb c "$" then expand_from ns (Some "") s'
          else String c (expand_from ns None s')
      end
  end.

Definition var_expand (ns : list (string * pyval)) (s : string) : string :=
  expand_from ns None s.

End Expand.

Definition is_blank (c : ascii) : bool :=
  Ascii.eqb c " " || (nat_of_ascii c =? 10)%nat || (nat_of_ascii c =? 9)%nat.

Definition push_word (cur : string) (ws : list string) : list string :=
  if String.eqb cur "" then ws else cur :: ws.

(** The words the shell makes of an unquoted command line: blanks
    separate, a backslash takes the next character literally and a
    backslash before a newline continues the line. *)
Fixpoint words_from (cur : string) (escaped : bool) (s : string) : list string :=
  match s with
  | EmptyString => push_word cur []
  | String c s' =>
      if escaped then
        if (nat_of_ascii c =? 10)%nat then words_from cur false s'
        else words_from (cur +:+ String c "") false s'
      else if Ascii.eqb c "\" then words_from cur true s'
      else if is_blank c then push_word cur (words_from "" false s')
      else words_from (cur +:+ String c "") false s'
  end.

Definition words (s : string) : list string := words_from "" false s.

(** [K=V] at the first [=] *)
Fixpoint split_eq (k s : string) : string * string :=
  match s with
  | EmptyString => (k, "")
  | String c s' => if Ascii.eqb c "=" then (k, s') else split_eq (k +:+ String c "") s'
  end.

(** The [-e K=V] options of a [docker run] command line. *)
Fixpoint docker_env (ws : list string) : list (string * string) :=
  match ws with
  | [] => []
  | a :: ws' =>
      match ws' with
      | b :: ws'' => if String.eqb a "-e" then split_eq "" b :: docker_env ws''
                     else docker_env ws'
      | [] => []
      end
  end.

(** The image is the last word: the notebook gives the container no command. *)
Definition docker_image (ws : list string) : option string := last ws.

End Shell.

(** ** The notebook, cell by cell *)

Module Notebook.

Definition dq : string := String "034"%char "".
Definition quoted (s : string) : string := dq +:+ s +:+ dq.

(** cell 1 (source line 46) *)
Definition pip_command : string :=
  "pip install " +:+ quoted "transformers==4.32.1" +:+ " "
  +:+ quoted "optimum==1.12.0" +:+ " " +:+ quoted "auto-gptq==0.4.2" +:+ " "
  +:+ quoted "accelerate==0.22.0" +:+ " " +:+ quoted "safetensors>=0.3.1"
  +:+ " --upgrade".

(** cell 2 (lines 66-67) *)
Definition dataset_id : string := "wikitext2".

Definition hub_model_id : string := "philschmid/llama-2-7b-instruction-generator".

(** the prompt of lines 188-204 *)
Definition prompt : string :=
"### Instruction:
Use the Input below to create an instruction, which could have been used to generate the input using an LLM.

### Input:
Dear [boss name],

I'm writing to request next week, August 1st through August 4th,
off as paid time off.

I have some personal matters to attend to that week that require
me to be out of the office. I wanted to give you as much advance
notice as possible so you can plan accordingly while I am away.

Thank you, [Your name]

### Response:
".

(** the command line of lines 367-374, before expansion *)
Definition docker_template : string :=
"docker run --gpus all -ti -p 8080:80 \
  -e MODEL_ID=$model \
  -e QUANTIZE=$quantize \
  -e NUM_SHARD=$num_shard \
  -e MAX_INPUT_LENGTH=$max_input_length \
  -e MAX_TOTAL_TOKENS=$max_total_tokens \
  -v $model:$model \
  ghcr.io/huggingface/text-generation-inference:1.0.3".

(** the assignments of lines 361-365 *)
Definition deploy_namespace : list (string * pyval) :=
  [("model", PStr "/home/ubuntu/test-gptq"); ("num_shard", PInt 1);
   ("quantize", PStr "gptq"); ("max_input_length", PInt 1562);
   ("max_total_tokens", PInt 4096)].

Section Cells.
Context `{P : Platform}.

Definition cell_install : M pyval := sh pip_command.

(** cell 3 (lines 85-89) *)
Definition cell_quantizer : M pyval :=
  run! import_ "optimum.gptq" ;;
  quantizer <- libcall (Func "GPTQQuantizer") []
                 [("bits", PInt 4); ("dataset", PStr dataset_id);
                  ("model_seqlen", PInt 4096)] ;;
  run! setattr quantizer "quant_method" (PStr "gptq") ;;
  ret quantizer.

(** cell 4 (lines 105-112): returns [model_id], [tokenizer], [model] *)
Definition cell_load : M (string * pyval * pyval) :=
  run! import_ "torch" ;;
  run! import_ "transformers" ;;
  let model_id := hub_model_id in
  tokenizer <- libcall (Func "AutoTokenizer.from_pretrained") [PStr model_id]
                 [("use_fast", PBool false)] ;;
  model <- libcall (Func "AutoModelForCausalLM.from_pretrained") [PStr model_id]
             [("low_cpu_mem_usage", PBool true);
              ("torch_dtype", PSym "torch.float16")] ;;
  ret (model_id, tokenizer, model).

(** cell 5 (lines 129-145): returns [save_folder] *)
Definition cell_quantize_save (quantizer model tokenizer : pyval)
  (model_id : string) : M string :=
  run! import_ "os" ;;
  run! import_ "json" ;;
  quantized_model <- libcall (Method quantizer "quantize_model")
                       [model; tokenizer] [] ;;
  let save_folder := "quantized_llama" in
  run! libcall (Method quantized_model "save_pretrained") [PStr save_folder]
         [("safe_serialization", PBool true)] ;;
  fresh <- libcall (Func "AutoTokenizer.from_pretrained") [PStr model_id] [] ;;
  tokenizer <- libcall (Method fresh "save_pretrained") [PStr save_folder] [] ;;
  run! with_open (path_join save_folder "quantize_config.json") "w" (fun f =>
         run! setattr quantizer "disable_exllama" (PBool false) ;;
         d <- libcall (Method quantizer "to_dict") [] [] ;;
         json_dump d f 2) ;;
  ret save_folder.

(** cell 6 (lines 161-165) *)
Definition cell_config_rewrite (save_folder : string) : M pyval :=
  with_open (path_join save_folder "config.json") "r" (fun f =>
    config <- json_load f ;;
    config <- lift (setitem2 config (PStr "quantization_config")
                      (PStr "disable_exllama") (PBool false)) ;;
    with_open (path_join save_folder "config.json") "w" (fun f =>
      json_dump config f 2)).

(** cell 7 (lines 185-222): [import time], the prompt, and the helper *)
Definition cell_helper : M pyval := import_ "time".

(** [for i in range(n): _ = pipeline("Warm up")] *)
Fixpoint warm_up (n : nat) (pipeline : pyval) : M unit :=
  match n with
  | O => ret tt
  | S n' => run! libcall (Invoke pipeline) [PStr "Warm up"] [] ;;
            warm_up n' pipeline
  end.

(** [out[0]["generated_text"][len(prompt):]] *)
Definition text_beyond (out : pyval) (prompt : string) : result pyval :=
  match getitem out (PInt 0) with
  | Raise e => Raise e
  | Ok first =>
      match getitem first (PStr "generated_text") with
      | Raise e => Raise e
      | Ok whole => slice_from whole (String.length prompt)
      end
  end.

(** [f"{round(latency_per_token_in_ms,2)}ms/token"] *)
Definition latency_string (latency_per_token_in_ms : float) : string :=
  repr (PFloat (round_ndigits latency_per_token_in_ms 2)) +:+ "ms/token".

(** lines 207-222 *)
Definition generate_helper (pipeline : pyval) (prompt : string) : M pyval :=
  run! warm_up 5 pipeline ;;
  start <- libcall (Func "time.time") [] [] ;;
  out <- libcall (Invoke pipeline) [PStr prompt]
           [("max_new_tokens", PInt 100); ("do_sample", PBool true);
            ("top_p", PFloat 0.9); ("temperature", PFloat 0.9)] ;;
  end_ <- libcall (Func "time.time") [] [] ;;
  generated_text <- lift (text_beyond out prompt) ;;
  elapsed <- lift (py_sub end_ start) ;;
  encoding <- libcall (Method pipeline "tokenizer") [generated_text] [] ;;
  input_ids <- lift (getitem encoding (PStr "input_ids")) ;;
  n <- lift (py_len input_ids) ;;
  per_token <- lift (py_truediv elapsed n) ;;
  let latency_per_token_in_ms := (per_token * float_of_Z 1000)%float in
  text <- lift (text_beyond out prompt) ;;
  ret (PDict [("text", text);
              ("latency", PStr (latency_string latency_per_token_in_ms))]).

(** cells 8 and 11 (lines 238-247, 303-312): returns the tokenizer, the
    model and the pipeline *)
Definition cell_load_pipeline (model_id : string) : M (pyval * pyval * pyval) :=
  run! import_ "torch" ;;
  run! import_ "transformers" ;;
  tokenizer <- libcall (Func "AutoTokenizer.from_pretrained") [PStr model_id] [] ;;
  model <- libcall (Func "AutoModelForCausalLM.from_pretrained") [PStr model_id]
             [("device_map", PStr "auto"); ("torch_dtype", PSym "torch.float16")] ;;
  pipe <- libcall (Func "pipeline") [PStr "text-generation"]
            [("model", model); ("tokenizer", tokenizer)] ;;
  ret (tokenizer, model, pipe).

(** the three [print]s of lines 267-269 and 330-332 *)
Definition report (r : pyval) : M pyval :=
  latency <- lift (getitem r (PStr "latency")) ;;
  run! print ("Latency: " +:+ py_str latency) ;;
  allocated <- libcall (Func "torch.cuda.memory_allocated") [] [] ;;
  gb <- lift (py_truediv allocated (1024 ^ 3)) ;;
  run! print ("GPU memory: " +:+ format_2f gb +:+ " GB") ;;
  text <- lift (getitem r (PStr "text")) ;;
  print ("Generated Instruction: " +:+ py_str text).

(** cell 9 (lines 263-269) *)
Definition cell_baseline (pipe : pyval) : M pyval :=
  run! import_ "torch" ;;
  vanilla_res <- generate_helper pipe prompt ;;
  run! report vanilla_res ;;
  ret vanilla_res.

(** cell 10 (lines 282-286) *)
Definition cell_cleanup (pipe model tokenizer : pyval) : M pyval :=
  run! del pipe ;;
  run! del model ;;
  run! del tokenizer ;;
  libcall (Func "torch.cuda.empty_cache") [] [].

(** cell 12 (lines 328-332) *)
Definition cell_quantized (qtq_pipe : pyval) : M pyval :=
  gpq_res <- generate_helper qtq_pipe prompt ;;
  run! report gpq_res ;;
  ret gpq_res.

(** cell 13 (lines 361-374) *)
Definition deploy_command : string := Shell.var_expand deploy_namespace docker_template.

Definition cell_deploy : M pyval := sh deploy_command.

(** The code cells in the order of the notebook: cells 1 to 5, which
    produce the quantized model on disk, then the rest.  The last code cell
    (lines 391-394) holds a [curl] command line without the [!] escape: it
    is not Python and is meant for a terminal, so it is not a step of the
    program. *)
Definition produce : M string :=
  run! cell_install ;;
  quantizer <- cell_quantizer ;;
  '(model_id, tokenizer, model) <- cell_load ;;
  cell_quantize_save quantizer model tokenizer model_id.

Definition notebook : M unit :=
  save_folder <- produce ;;
  run! cell_config_rewrite save_folder ;;
  run! cell_helper ;;
  '(tokenizer, model, pipe) <- cell_load_pipeline hub_model_id ;;
  run! cell_baseline pipe ;;
  run! cell_cleanup pipe model tokenizer ;;
  '(q_tokenizer, q_model, qtq_pipe) <- cell_load_pipeline "quantized_llama" ;;
  run! cell_quantized qtq_pipe ;;
  run! cell_deploy ;;
  ret tt.

End Cells.
End Notebook.


(** ** Observing a run *)

(** The label of an operation: the callee as the notebook writes it,
    followed by the module for an [import], by the location for a loader
    and for [open], and by the program for a shell command. *)
Definition labelled_with_arg (q : string) : bool :=
  existsb (String.eqb q)
    ["import"; "open"; "AutoTokenizer.from_pretrained";
     "AutoModelForCausalLM.from_pretrained"].

Definition op_label (c : call) : string :=
  match target c with
  | Func q =>
      if String.eqb q "!" then
        match args c with
        | PStr a :: _ => "!" +:+ default "" (head (Shell.words a))
        | _ => q
        end
      else if labelled_with_arg q then
        match args c with
        | PStr a :: _ => q +:+ " " +:+ a
        | _ => q
        end
      else q
  | Method _ name => "." +:+ name
  | Invoke _ => "()"
  end.

Definition labels (t : list event) : list string :=
  map (fun ev => op_label (ev_call ev)) t.

Definition succeeded (ev : event) : Prop := is_ok (ev_res ev) = true.

(** the closing of a file on the way out of a [with] *)
Definition is_exit (ev : event) : Prop :=
  exists f, ev = Ev (Call (Method f "__exit__") [] []) (Ok PNone).

(** [a] never comes after [b] *)
Fixpoint never_after (a b : string) (l : list string) : bool :=
  match l with
  | [] => true
  | x :: l' =>
      (if String.eqb x b then negb (existsb (String.eqb a) l') else true)
      && never_after a b l'
  end.

Fixpoint count (a : string) (l : list string) : nat :=
  match l with
  | [] => 0
  | x :: l' => (if String.eqb x a then 1 else 0) + count a l'
  end.

(** *** the operations of each cell, in order *)

Module Ops.
Import Notebook.

Definition loader (cls location : string) : string :=
  cls +:+ ".from_pretrained " +:+ location.

Definition setup : list string :=
  ["!pip"; "import optimum.gptq"; "GPTQQuantizer"; "setattr"].

Definition load : list string :=
  ["import torch"; "import transformers";
   loader "AutoTokenizer" hub_model_id; loader "AutoModelForCausalLM" hub_model_id].

Definition quantize : list string :=
  ["import os"; "import json"; ".quantize_model"].

Definition save (folder model_id : string) : list string :=
  [".save_pretrained"; loader "AutoTokenizer" model_id; ".save_pretrained";
   "open " +:+ path_join folder "quantize_config.json";
   "setattr"; ".to_dict"; "json.dump"; ".__exit__"].

Definition config_rewrite (folder : string) : list string :=
  ["open " +:+ path_join folder "config.json"; "json.load";
   "open " +:+ path_join folder "config.json"; "json.dump";
   ".__exit__"; ".__exit__"].

Definition helper : list string := ["import time"].

Definition load_pipeline (location : string) : list string :=
  ["import torch"; "import transformers";
   loader "AutoTokenizer" location; loader "AutoModelForCausalLM" location;
   "pipeline"].

Definition generate : list string :=
  ["()"; "()"; "()"; "()"; "()"; "time.time"; "()"; "time.time"; ".tokenizer"].

Definition report : list string :=
  ["print"; "torch.cuda.memory_allocated"; "print"; "print"].

Definition baseline : list string := "import torch" :: generate ++ report.

Definition cleanup : list string :=
  ["del"; "del"; "del"; "torch.cuda.empty_cache"].

Definition quantized : list string := generate ++ report.

Definition deploy : list string := ["!docker"].

Definition produce : list string :=
  setup ++ load ++ quantize ++ save "quantized_llama" hub_model_id.

(** what precedes the cleanup, and what follows it *)
Definition before_cleanup : list string :=
  produce ++ config_rewrite "quantized_llama" ++ helper
  ++ load_pipeline hub_model_id ++ baseline.

Definition after_cleanup : list string :=
  load_pipeline "quantized_llama" ++ quantized ++ deploy.

Definition notebook : list string :=
  before_cleanup ++ cleanup ++ after_cleanup.

End Ops.

(** *** the events of the cells that load and free the baseline *)

Definition load_pipeline_events (model_id : string) (r1 r2 : result pyval)
  (tokenizer model pipe : pyval) : list event :=
  [Ev (Call (Func "import") [PStr "torch"] []) r1;
   Ev (Call (Func "import") [PStr "transformers"] []) r2;
   Ev (Call (Func "AutoTokenizer.from_pretrained") [PStr model_id] [])
      (Ok tokenizer);
   Ev (Call (Func "AutoModelForCausalLM.from_pretrained") [PStr model_id]
         [("device_map", PStr "auto"); ("torch_dtype", PSym "torch.float16")])
      (Ok model);
   Ev (Call (Func "pipeline") [PStr "text-generation"]
         [("model", model); ("tokenizer", tokenizer)])
      (Ok pipe)].

Definition cleanup_events (pipe model tokenizer : pyval) (r : result pyval)
  : list event :=
  [Ev (Call (Func "del") [pipe] []) (Ok PNone);
   Ev (Call (Func "del") [model] []) (Ok PNone);
   Ev (Call (Func "del") [tokenizer] []) (Ok PNone);
   Ev (Call (Func "torch.cuda.empty_cache") [] []) r].

(** *** properties of a computation *)

Section Properties.
Context `{P : Platform}.

(** [m], started in [w], returns [a] in the world [w'] after the events [t]. *)
Definition runs {A} (m : M A) (w : world ext_state) (a : A)
  (w' : world ext_state) (t : list event) : Prop :=
  m w = Out (Ok a) w' t.

(** The operations of [m] come in the order of [l]: every run performs a
    sublist of [l], and a run that returns performs all of [l]. *)
Definition follows {A} (m : M A) (l : list string) : Prop :=
  forall w, sublist (labels (trace (m w))) l
            /\ (is_ok (res (m w)) = true -> labels (trace (m w)) = l).

(** When an operation raises, that exception is the result of the run, all
    operations before it succeeded, and nothing but the closing of open
    files comes after it. *)
Definition faithful {A} (o : outcome ext_state A) : Prop :=
  Forall succeeded (trace o)
  \/ exists pre c e post,
       trace o = pre ++ Ev c (Raise e) :: post
       /\ Forall succeeded pre /\ Forall is_exit post /\ res o = Raise e.

Definition propagating {A} (m : M A) : Prop :=
  forall w, (forall a, res (m w) = Ok a -> Forall succeeded (trace (m w)))
            /\ faithful (m w).

End Properties.

Section MoreProperties.
Context `{P : Platform}.

(** every event of every run of [m] satisfies [Q] *)
Definition emits {A} (Q : event -> Prop) (m : M A) : Prop :=
  forall w, Forall Q (trace (m w)).

End MoreProperties.

(** the constructor call of cell 3 *)
Definition quantizer_call : call :=
  Call (Func "GPTQQuantizer") []
    [("bits", PInt 4); ("dataset", PStr "wikitext2"); ("model_seqlen", PInt 4096)].



Definition reload_label : string := Ops.loader "AutoModelForCausalLM" "quantized_llama".

(** The order as the sentence "setup, load, quantize, save, reload,
    benchmark, deploy" has it puts the reload of the quantized model before
    the benchmark: no run would load the quantized model after a benchmark
    has read its timer. *)
Definition reload_before_benchmark : Prop :=
  forall (P : Platform) (w : world ext_state),
    never_after reload_label "time.time" (labels (trace (Notebook.notebook w))) = true.

(** *** the calls of [generate_helper] *)

Definition warm_up_call (pipeline : pyval) : call :=
  Call (Invoke pipeline) [PStr "Warm up"] [].

Definition clock_call : call := Call (Func "time.time") [] [].

Definition timed_call (pipeline : pyval) (prompt : string) : call :=
  Call (Invoke pipeline) [PStr prompt]
    [("max_new_tokens", PInt 100); ("do_sample", PBool true);
     ("top_p", PFloat 0.9); ("temperature", PFloat 0.9)].

Definition tokenizer_call (pipeline text : pyval) : call :=
  Call (Method pipeline "tokenizer") [text] [].

(** *** what the notebook relies on from optimum's quantizer

    The quantizer class belongs to optimum, not to the notebook.  That
    [quantize_config.json] records the bit width rests on three things the
    library does: the constructor stores its [bits] argument in the object
    it returns, no library call changes the [bits] of an object, and
    [to_dict] reports the attributes [bits] and [disable_exllama] of its
    object, without touching any file. *)
Record quantizer_contract `{P : Platform} : Prop := {
  constructor_stores_bits :
    forall kw w h w',
      lib (Call (Func "GPTQQuantizer") [] kw) w = (Ok (PObj h), w') ->
      attr w' h "bits" = dict_get kw "bits";
  bits_stable :
    forall c w r w' h v,
      lib c w = (r, w') -> attr w h "bits" = Some v -> attr w' h "bits" = Some v;
  to_dict_reports :
    forall h w d w',
      lib (Call (Method (PObj h) "to_dict") [] []) w = (Ok d, w') ->
      fs w' = fs w
      /\ exists params,
           d = PDict params
           /\ forall k v, k = "bits" \/ k = "disable_exllama" ->
                          attr w h k = Some v -> dict_get params k = Some v
}.
Arguments quantizer_contract P : clear implicits.

(** the events of lines 143-145, for the quantizer [q] and its parameters *)
Definition quantize_config_events (path : string) (q params : pyval) : list event :=
  [Ev (Call (Func "open") [PStr path; PStr "w"] [("encoding", PStr "utf-8")])
      (Ok (PFile path "w"));
   Ev (Call (Func "setattr") [q; PStr "disable_exllama"; PBool false] []) (Ok PNone);
   Ev (Call (Method q "to_dict") [] []) (Ok params);
   Ev (Call (Func "json.dump") [params; PFile path "w"] [("indent", PInt 2)])
      (Ok PNone);
   Ev (Call (Method (PFile path "w") "__exit__") [] []) (Ok PNone)].

(** ** A small platform to run the notebook on

    Objects are allocated at fresh handles with the constructor's keyword
    arguments as attributes; quantization switches [disable_exllama] on, as
    the notebook reports of a partially offloaded model; saving a model
    writes its [config.json]; a pipeline call takes [cost] seconds of the
    clock and continues the prompt with [generated]; the tokenizer yields
    one id per character, after a begin-of-sequence id when [bos] is set.
    [fail_on] names an operation that raises. *)

Module Demo.

Record setting : Type := Setting {
  generated : string;
  bos : bool;
  cost : Z;
  fail_on : option string
}.

Definition usual : setting := Setting "Write a request for PTO" true 3 None.

Fixpoint attrs_of (kw : list (string * pyval)) : gmap string pyval :=
  match kw with
  | [] => ∅
  | (k, v) :: kw' => <[k := v]> (attrs_of kw')
  end.

Definition alloc (attrs : gmap string pyval) (w : world Z) : pyval * world Z :=
  let h := fresh (dom (heap w)) in
  (PObj h, World (<[h := attrs]> (heap w)) (fs w) (ext w)).

Definition the_attr (w : world Z) (o : pyval) (name : string) : pyval :=
  match o with
  | PObj h => default PNone (attr w h name)
  | _ => PNone
  end.

Definition to_dict (w : world Z) (o : pyval) : pyval :=
  PDict (map (fun k => (k, the_attr w o k))
           ["bits"; "dataset"; "model_seqlen"; "quant_method"; "disable_exllama"]).

Fixpoint codes (s : string) : list pyval :=
  match s with
  | EmptyString => []
  | String c s' => PInt (Z.of_nat (nat_of_ascii c)) :: codes s'
  end.

Definition tick (d : Z) (w : world Z) : world Z :=
  World (heap w) (fs w) (ext w + d)%Z.

Definition func (q : string) (c : call) (w : world Z) : result pyval * world Z :=
  if String.eqb q "GPTQQuantizer" then
    let '(o, w') := alloc (<["disable_exllama" := PBool false]> (attrs_of (kwargs c))) w in
    (Ok o, w')
  else if String.eqb q "AutoTokenizer.from_pretrained" then
    let '(o, w') := alloc {["kind" := PStr "tokenizer"]} w in (Ok o, w')
  else if String.eqb q "AutoModelForCausalLM.from_pretrained" then
    let '(o, w') := alloc {["kind" := PStr "model"]} w in (Ok o, w')
  else if String.eqb q "pipeline" then
    let '(o, w') := alloc (attrs_of (kwargs c)) w in (Ok o, w')
  else if String.eqb q "time.time" then (Ok (PFloat (float_of_Z (ext w))), w)
  else if String.eqb q "torch.cuda.memory_allocated" then (Ok (PInt 4112431104), w)
  else (Ok PNone, w).

Definition method (s : setting) (self : pyval) (name : string) (c : call)
  (w : world Z) : result pyval * world Z :=
  match self with
  | PObj h =>
      if String.eqb name "quantize_model" then
        let '(o, w') := alloc {["kind" := PStr "model"]}
                          (set_attr h "disable_exllama" (PBool true) w) in
        (Ok o, set_attr (match o with PObj q => q | _ => h end)
                 "quantization_config" (to_dict w' self) w')
      else if String.eqb name "save_pretrained" then
        match args c, attr w h "quantization_config" with
        | PStr folder :: _, Some q =>
            (Ok PNone,
             write_file (path_join folder "config.json")
               [Doc (PDict [("model_type", PStr "llama");
                            ("quantization_config", q);
                            ("torch_dtype", PStr "float16")])] w)
        | PStr folder :: _, None =>
            (Ok (PList [PStr (path_join folder "tokenizer_config.json")]),
             write_file (path_join folder "tokenizer_config.json")
               [Doc (PDict [("use_fast", PBool true)])] w)
        | _, _ => (Raise TypeError, w)
        end
      else if String.eqb name "to_dict" then (Ok (to_dict w self), w)
      else if String.eqb name "tokenizer" then
        match args c with
        | [PStr text] =>
            (Ok (PDict [("input_ids",
                         PList ((if bos s then [PInt 1] else []) ++ codes text))]),
             w)
        | _ => (Raise TypeError, w)
        end
      else (Raise (AttributeError name), w)
  | _ => (Raise (AttributeError name), w)
  end.

Definition invoke (s : setting) (c : call) (w : world Z)
  : result pyval * world Z :=
  match args c with
  | [PStr text] =>
      (Ok (PList [PDict [("generated_text", PStr (text +:+ generated s))]]),
       tick (cost s) w)
  | _ => (Raise TypeError, w)
  end.

Definition handler (s : setting) (c : call) (w : world Z)
  : result pyval * world Z :=
  if match fail_on s with
     | Some l => String.eqb (op_label c) l
     | None => false
     end
  then (Raise (LibraryError "OutOfMemoryError"), w)
  else match target c with
       | Func q => func q c w
       | Method self name => method s self name c w
       | Invoke _ => invoke s c w
       end.

(** Stand-ins for the runtime's formatting of floats: hundredths, rounded
    down. *)
Definition hundredths (f : float) : Z :=
  match Prim2SF (f * 100)%float with
  | S754_finite false m e =>
      if (0 <=? e)%Z then (Z.pos m * 2 ^ e)%Z else (Z.pos m / 2 ^ (- e))%Z
  | _ => 0%Z
  end.

Definition two_places (f : float) : string :=
  let c := hundredths f in
  dec (c / 100) +:+ "." +:+ dec (c mod 100 / 10) +:+ dec (c mod 10).

#[local] Instance platform (s : setting) : Platform := {|
  ext_state := Z;
  lib := handler s;
  shell := fun _ w => w;
  finalize := fun _ w => w;
  refuses := fun _ _ _ => None;
  round_ndigits := fun f _ => f;
  repr := fun v => match v with PFloat f => two_places f | _ => "<object>" end;
  format_2f := two_places
|}.

(** the quantizer runs out of memory while its parameters are being saved *)
Definition out_of_memory : setting :=
  Setting "Write a request for PTO" true 3 (Some ".to_dict").

(** the model generates nothing and the tokenizer adds nothing *)
Definition silent : setting := Setting "" false 3 None.

Definition start : world Z := World ∅ ∅ 1700000000%Z.

Definition run {A} (s : setting) (m : @M (platform s) A) : outcome Z A := m start.

End Demo.

(** ** Further properties of a computation, and further platforms *)

Section OrderProperties.
Context `{P : Platform}.

(** Every run of [m] performs an initial segment of [l], in order and
    without a gap, and after it nothing but the closing of files; a run
    that returns performs all of [l]. *)
Definition in_order {A} (m : M A) (l : list string) : Prop :=
  forall w,
    (is_ok (res (m w)) = true -> labels (trace (m w)) = l)
    /\ exists n k, labels (trace (m w)) = take n l ++ replicate k ".__exit__".

End OrderProperties.

(** [ev] calls no pipeline, and no method of an object, other than [p] *)
Definition on_pipeline (p : pyval) (ev : event) : Prop :=
  match target (ev_call ev) with
  | Invoke q => q = p
  | Method q _ => q = p
  | Func _ => True
  end.

Module DemoMore.

(** A platform whose pipelines return no sequence at all: the demonstration
    platform, but a pipeline call answers with an empty list. *)
Definition speechless (c : call) (w : world Z) : result pyval * world Z :=
  match target c with
  | Invoke _ => (Ok (PList []), Demo.tick 3 w)
  | _ => Demo.handler Demo.usual c w
  end.

#[local] Instance speechless_platform : Platform := {|
  ext_state := Z;
  lib := speechless;
  shell := fun _ w => w;
  finalize := fun _ w => w;
  refuses := fun _ _ _ => None;
  round_ndigits := fun f _ => f;
  repr := fun v => match v with PFloat f => Demo.two_places f | _ => "<object>" end;
  format_2f := Demo.two_places
|}.


End DemoMore.

(** ** Facts about the monad *)

Section MonadFacts.
Context `{P : Platform}.

Lemma bind_run {A B} (m : M A) (f : A -> M B) w :
  bind m f w =
  match res (m w) with
  | Raise e => Out (Raise e) (final (m w)) (trace (m w))
  | Ok a => Out (res (f a (final (m w)))) (final (f a (final (m w))))
              (trace (m w) ++ trace (f a (final (m w))))
  end.
Proof. reflexivity. Qed.

Lemma bind_ok_inv {A B} (m : M A) (f : A -> M B) w b :
  res (bind m f w) = Ok b ->
  exists a, res (m w) = Ok a /\ res (f a (final (m w))) = Ok b
    /\ final (bind m f w) = final (f a (final (m w)))
    /\ trace (bind m f w) = trace (m w) ++ trace (f a (final (m w))).
Proof.
  rewrite bind_run. destruct (res (m w)) as [a|e] eqn:E; simpl; [|discriminate].
  intros Hb. exists a. auto.
Qed.

Lemma bind_assoc {A B C} (m : M A) (f : A -> M B) (k : B -> M C) w :
  bind (bind m f) k w = bind m (fun a => bind (f a) k) w.
Proof.
  rewrite !bind_run. destruct (m w) as [[a|e] w1 t1]; simpl; [|reflexivity].
  rewrite !bind_run. destruct (f a w1) as [[b|e] w2 t2]; simpl; [|reflexivity].
  rewrite app_assoc. reflexivity.
Qed.

Lemma bind_ret_l {A B} (a : A) (f : A -> M B) w : bind (ret a) f w = f a w.
Proof. rewrite bind_run. simpl. destruct (f a w); reflexivity. Qed.

Lemma prim_run c act w :
  prim c act w = Out (act w).1 (act w).2 [Ev c (act w).1].
Proof. unfold prim. destruct (act w); reflexivity. Qed.

Lemma lift_run {A} (r : result A) w : lift r w = Out r w [].
Proof. destruct r; reflexivity. Qed.

Lemma with_open_run {A} path mode (body : pyval -> M A) w :
  with_open path mode body w =
  match res (open_ path mode w) with
  | Raise e => Out (Raise e) (final (open_ path mode w)) (trace (open_ path mode w))
  | Ok f =>
      let ob := body f (final (open_ path mode w)) in
      Out (res ob) (final ob)
        (trace (open_ path mode w) ++ trace ob
         ++ [Ev (Call (Method f "__exit__") [] []) (Ok PNone)])
  end.
Proof. reflexivity. Qed.

Lemma open_trace path mode w :
  trace (open_ path mode w)
  = [Ev (Call (Func "open") [PStr path; PStr mode] [("encoding", PStr "utf-8")])
       (res (open_ path mode w))].
Proof. unfold open_. rewrite prim_run. reflexivity. Qed.

(** *** runs that return *)

Lemma runs_intro {A} (m : M A) w a :
  res (m w) = Ok a -> runs m w a (final (m w)) (trace (m w)).
Proof. unfold runs. destruct (m w) as [r w' t]. simpl. intros ->. reflexivity. Qed.

Lemma runs_res {A} (m : M A) w a w' t :
  runs m w a w' t -> res (m w) = Ok a /\ final (m w) = w' /\ trace (m w) = t.
Proof. unfold runs. intros ->. auto. Qed.

Lemma runs_bind_inv {A B} (m : M A) (f : A -> M B) w b w2 t :
  runs (bind m f) w b w2 t ->
  exists a w1 t1 t2, runs m w a w1 t1 /\ runs (f a) w1 b w2 t2 /\ t = t1 ++ t2.
Proof.
  unfold runs. rewrite bind_run. destruct (m w) as [[a|e] w1 t1]; simpl; [|discriminate].
  destruct (f a w1) as [r w2' t2] eqn:E. simpl. intros [= -> -> <-].
  exists a, w1, t1, t2. auto.
Qed.

Lemma runs_bind {A B} (m : M A) (f : A -> M B) w a w1 t1 b w2 t2 :
  runs m w a w1 t1 -> runs (f a) w1 b w2 t2 -> runs (bind m f) w b w2 (t1 ++ t2).
Proof. unfold runs. rewrite bind_run. intros -> . simpl. intros ->. reflexivity. Qed.

Lemma runs_ret_inv {A} (a b : A) w w' t : runs (ret a) w b w' t -> b = a /\ w' = w /\ t = [].
Proof. unfold runs, ret. intros [= -> -> <-]. auto. Qed.

Lemma runs_lift_inv {A} (r : result A) a w w' t :
  runs (lift r) w a w' t -> r = Ok a /\ w' = w /\ t = [].
Proof. unfold runs. rewrite lift_run. intros [= -> -> <-]. auto. Qed.

Lemma runs_prim_inv c act w v w' t :
  runs (prim c act) w v w' t -> act w = (Ok v, w') /\ t = [Ev c (Ok v)].
Proof.
  unfold runs. rewrite prim_run. destruct (act w) as [r w1]. simpl.
  intros [= -> -> <-]. auto.
Qed.

Lemma runs_with_open_inv {A} path mode (body : pyval -> M A) w a w' t :
  runs (with_open path mode body) w a w' t ->
  exists f w1 tb,
    runs (open_ path mode) w f w1
      [Ev (Call (Func "open") [PStr path; PStr mode] [("encoding", PStr "utf-8")]) (Ok f)]
    /\ runs (body f) w1 a w' tb
    /\ t = Ev (Call (Func "open") [PStr path; PStr mode] [("encoding", PStr "utf-8")]) (Ok f)
          :: tb ++ [Ev (Call (Method f "__exit__") [] []) (Ok PNone)].
Proof.
  unfold runs. rewrite with_open_run.
  destruct (open_ path mode w) as [[f|e] w1 t1] eqn:E; simpl; [|discriminate].
  destruct (body f w1) as [r w2 tb] eqn:Eb. simpl. intros [= -> -> <-].
  unfold open_ in E. rewrite prim_run in E. injection E as E1 E2 E3.
  subst t1. rewrite E1. exists f, w1, tb. simpl. auto.
Qed.

(** *** order of operations *)

Lemma follows_eq {A} (m : M A) l l' : follows m l' -> l' = l -> follows m l.
Proof. intros H <-. exact H. Qed.

Lemma follows_ret {A} (a : A) : follows (ret a) [].
Proof. intros w. split; [constructor | reflexivity]. Qed.

Lemma follows_lift {A} (r : result A) : follows (lift r) [].
Proof. intros w. rewrite lift_run. split; [constructor | reflexivity]. Qed.

Lemma follows_prim c act : follows (prim c act) [op_label c].
Proof. intros w. rewrite prim_run. simpl. split; [reflexivity | reflexivity]. Qed.

Lemma follows_prim_label c act l : op_label c = l -> follows (prim c act) [l].
Proof. intros <-. apply follows_prim. Qed.

Lemma follows_bind {A B} (m : M A) (f : A -> M B) l1 l2 :
  follows m l1 -> (forall a, follows (f a) l2) -> follows (bind m f) (l1 ++ l2).
Proof.
  intros Hm Hf w. rewrite bind_run. destruct (Hm w) as [S1 E1].
  destruct (res (m w)) as [a|e]; simpl.
  - destruct (Hf a (final (m w))) as [S2 E2].
    unfold labels in *. rewrite map_app, E1 by reflexivity. split.
    + apply sublist_app; [reflexivity | exact S2].
    + intros Hok. rewrite E2 by exact Hok. reflexivity.
  - split; [apply sublist_inserts_r; exact S1 | discriminate].
Qed.

Lemma follows_bind_when {A B} (Q : A -> Prop) (m : M A) (f : A -> M B) l1 l2 :
  follows m l1 -> (forall w a, res (m w) = Ok a -> Q a) ->
  (forall a, Q a -> follows (f a) l2) -> follows (bind m f) (l1 ++ l2).
Proof.
  intros Hm HQ Hf w. rewrite bind_run. destruct (Hm w) as [S1 E1].
  destruct (res (m w)) as [a|e] eqn:R; simpl.
  - destruct (Hf a (HQ w a R) (final (m w))) as [S2 E2].
    unfold labels in *. rewrite map_app, E1 by reflexivity. split.
    + apply sublist_app; [reflexivity | exact S2].
    + intros Hok. rewrite E2 by exact Hok. reflexivity.
  - split; [apply sublist_inserts_r; exact S1 | discriminate].
Qed.

Lemma follows_with_open {A} path mode (body : pyval -> M A) l :
  (forall f, follows (body f) l) ->
  follows (with_open path mode body) (("open " +:+ path) :: l ++ [".__exit__"]).
Proof.
  intros Hb w. rewrite with_open_run. unfold open_. rewrite prim_run. simpl.
  destruct (open_action path mode w) as [[f|e] w']; simpl.
  - destruct (Hb f w') as [S E]. unfold labels in *.
    rewrite map_app. simpl. split.
    + apply sublist_skip, sublist_app; [exact S | reflexivity].
    + intros Hok. rewrite E by exact Hok. reflexivity.
  - split; [apply sublist_skip, sublist_nil_l | discriminate].
Qed.

End MonadFacts.

(** ** The order of the notebook's operations *)

Ltac follows_step :=
  lazymatch goal with
  | |- follows (bind _ _) _ => eapply follows_bind; [ | intros ]
  | |- follows (match ?x with _ => _ end) _ => destruct x
  | |- follows (prim _ _) _ => eapply follows_prim_label; cbv; reflexivity
  | |- follows (ret _) _ => apply follows_ret
  | |- follows (lift _) _ => apply follows_lift
  | |- follows (with_open _ _ _) _ => eapply follows_with_open; intros
  end.

(** Inversion of a run that returned, down to the single operations. *)
Ltac run_inv :=
  repeat match goal with
  | H : runs (bind _ _) _ _ _ _ |- _ =>
      apply runs_bind_inv in H; destruct H as (? & ? & ? & ? & ? & H & ?)
  | H : runs (ret _) _ _ _ _ |- _ =>
      apply runs_ret_inv in H; destruct H as (? & ? & ?)
  | H : runs (lift _) _ _ _ _ |- _ =>
      apply runs_lift_inv in H; destruct H as (H & ? & ?)
  | H : runs (prim _ _) _ _ _ _ |- _ =>
      apply runs_prim_inv in H; destruct H as (H & ?)
  | H : runs (with_open _ _ _) _ _ _ _ |- _ =>
      apply runs_with_open_inv in H; destruct H as (? & ? & ? & ? & H & ?)
  | H : runs (match ?x with _ => _ end) _ _ _ _ |- _ => destruct x
  end.

Ltac follows_cell :=
  eapply follows_eq;
  [ unfold import_, sh, print, del, setattr, json_dump, json_load;
    unfold libcall; repeat follows_step
  | try reflexivity ].

Section Order.
Context `{P : Platform}.
Import Notebook.

Lemma follows_install : follows cell_install ["!pip"].
Proof. unfold cell_install. follows_cell. Qed.

Lemma follows_quantizer : follows cell_quantizer (tail Ops.setup).
Proof. unfold cell_quantizer. follows_cell. Qed.

Lemma follows_load : follows cell_load Ops.load.
Proof. unfold cell_load. follows_cell. Qed.

Lemma follows_quantize_save quantizer model tokenizer model_id :
  follows (cell_quantize_save quantizer model tokenizer model_id)
    (Ops.quantize ++ Ops.save "quantized_llama" model_id).
Proof. unfold cell_quantize_save. follows_cell. Qed.

Lemma follows_config_rewrite folder :
  follows (cell_config_rewrite folder) (Ops.config_rewrite folder).
Proof. unfold cell_config_rewrite. follows_cell. Qed.

Lemma follows_warm_up n pipeline :
  follows (warm_up n pipeline) (replicate n "()").
Proof.
  induction n as [|n IH]; simpl.
  - apply follows_ret.
  - eapply follows_eq.
    + eapply follows_bind; [unfold libcall; follows_step | intros; exact IH].
    + reflexivity.
Qed.

Lemma follows_generate_helper pipeline prompt :
  follows (generate_helper pipeline prompt) Ops.generate.
Proof.
  unfold generate_helper. eapply follows_eq.
  - eapply follows_bind; [apply follows_warm_up | intros].
    unfold libcall. repeat follows_step.
  - reflexivity.
Qed.

Lemma follows_report r : follows (report r) Ops.report.
Proof. unfold report. follows_cell. Qed.

Lemma follows_load_pipeline model_id :
  follows (cell_load_pipeline model_id) (Ops.load_pipeline model_id).
Proof. unfold cell_load_pipeline. follows_cell. Qed.

Lemma follows_baseline pipe : follows (cell_baseline pipe) Ops.baseline.
Proof.
  unfold cell_baseline. eapply follows_eq.
  - eapply follows_bind; [unfold import_, libcall; follows_step | intros].
    eapply follows_bind; [apply follows_generate_helper | intros].
    eapply follows_bind; [apply follows_report | intros; apply follows_ret].
  - reflexivity.
Qed.

Lemma follows_cleanup pipe model tokenizer :
  follows (cell_cleanup pipe model tokenizer) Ops.cleanup.
Proof. unfold cell_cleanup. follows_cell. Qed.

Lemma follows_quantized pipe : follows (cell_quantized pipe) Ops.quantized.
Proof.
  unfold cell_quantized. eapply follows_eq.
  - eapply follows_bind; [apply follows_generate_helper | intros].
    eapply follows_bind; [apply follows_report | intros; apply follows_ret].
  - reflexivity.
Qed.

Lemma follows_deploy : follows cell_deploy Ops.deploy.
Proof. unfold cell_deploy. follows_cell. Qed.

Lemma cell_load_model_id w r : res (cell_load w) = Ok r -> r.1.1 = hub_model_id.
Proof.
  intros H. apply runs_intro in H. unfold cell_load, import_, libcall in H.
  run_inv. subst. reflexivity.
Qed.

Lemma follows_produce : follows produce Ops.produce.
Proof.
  unfold produce. eapply follows_eq.
  - eapply follows_bind; [apply follows_install | intros].
    eapply follows_bind; [apply follows_quantizer | intros].
    eapply (follows_bind_when (fun r => r.1.1 = hub_model_id));
      [apply follows_load | apply cell_load_model_id | ].
    intros [[model_id tokenizer] model]. simpl. intros ->.
    apply follows_quantize_save.
  - reflexivity.
Qed.

End Order.

Section WholeOrder.
Context `{P : Platform}.
Import Notebook.

Lemma produce_folder w r : res (produce w) = Ok r -> r = "quantized_llama".
Proof.
  intros H. apply runs_intro in H.
  unfold produce, cell_quantize_save, import_, libcall in H.
  run_inv. subst. reflexivity.
Qed.

Lemma follows_notebook : follows notebook Ops.notebook.
Proof.
  unfold notebook. eapply follows_eq.
  - eapply (follows_bind_when (fun r => r = "quantized_llama"));
      [apply follows_produce | apply produce_folder | intros folder ->].
    eapply follows_bind; [apply follows_config_rewrite | intros].
    eapply follows_bind; [unfold cell_helper, import_, libcall; follows_step | intros].
    eapply follows_bind; [apply follows_load_pipeline | intros [[tokenizer model] pipe]].
    eapply follows_bind; [apply follows_baseline | intros].
    eapply follows_bind; [apply follows_cleanup | intros].
    eapply follows_bind; [apply follows_load_pipeline | intros [[q_tokenizer q_model] qtq_pipe]].
    eapply follows_bind; [apply follows_quantized | intros].
    eapply follows_bind; [apply follows_deploy | intros; apply follows_ret].
  - reflexivity.
Qed.

End WholeOrder.

(** *** order and counts pass to sublists *)

Lemma existsb_sublist (f : string -> bool) (l' l : list string) :
  sublist l' l -> existsb f l' = true -> existsb f l = true.
Proof.
  induction 1 as [|x l1 l2 _ IH|x l1 l2 _ IH]; simpl; intros H.
  - exact H.
  - apply orb_true_iff in H as [H|H]; apply orb_true_iff; auto.
  - apply orb_true_iff. auto.
Qed.

Lemma never_after_sublist a b (l' l : list string) :
  sublist l' l -> never_after a b l = true -> never_after a b l' = true.
Proof.
  induction 1 as [|x l1 l2 S IH|x l1 l2 S IH]; simpl; intros H.
  - reflexivity.
  - apply andb_true_iff in H as [H1 H2]. apply andb_true_iff. split; [|auto].
    destruct (String.eqb x b); [|reflexivity].
    apply negb_true_iff in H1. apply negb_true_iff.
    destruct (existsb (String.eqb a) l1) eqn:E; [|reflexivity].
    rewrite (existsb_sublist _ _ _ S E) in H1. discriminate.
  - apply andb_true_iff in H as [_ H2]. auto.
Qed.

Lemma count_sublist a (l' l : list string) :
  sublist l' l -> (count a l' <= count a l)%nat.
Proof.
  induction 1 as [|x l1 l2 _ IH|x l1 l2 _ IH]; simpl; lia.
Qed.

(** ** Exceptions are not caught *)

Section Propagation.
Context `{P : Platform}.

Lemma propagating_ret {A} (a : A) : propagating (ret a).
Proof. intros w. split; [intros; constructor | left; constructor]. Qed.

Lemma propagating_lift {A} (r : result A) : propagating (lift r).
Proof.
  intros w. rewrite lift_run. simpl. split; [intros; constructor | left; constructor].
Qed.

Lemma propagating_prim c act : propagating (prim c act).
Proof.
  intros w. rewrite prim_run. destruct (act w) as [[v|e] w']; simpl.
  - assert (Forall succeeded [Ev c (Ok v)]) by (repeat constructor).
    split; [auto | left; assumption].
  - split; [discriminate |].
    right. exists [], c, e, []. simpl. repeat split; constructor.
Qed.

Lemma propagating_bind {A B} (m : M A) (f : A -> M B) :
  propagating m -> (forall a, propagating (f a)) -> propagating (bind m f).
Proof.
  intros Hm Hf w. rewrite bind_run. destruct (Hm w) as [C1 F1].
  destruct (res (m w)) as [a|e] eqn:R; simpl.
  - specialize (C1 a eq_refl). destruct (Hf a (final (m w))) as [C2 F2]. split.
    + intros b Hb. apply Forall_app; split; eauto.
    + destruct F2 as [F2|(pre & c & e & post & Et & Hpre & Hpost & Hres)].
      * left. simpl. apply Forall_app; split; eauto.
      * right. exists (trace (m w) ++ pre), c, e, post. simpl.
        rewrite Et, <- app_assoc. repeat split; auto. apply Forall_app; split; eauto.
  - split; [discriminate |].
    destruct F1 as [F1|(pre & c & e' & post & Et & Hpre & Hpost & Hres)].
    + left. exact F1.
    + right. exists pre, c, e'. exists post. simpl. rewrite R in Hres. injection Hres as <-. repeat split; auto.
Qed.

Lemma propagating_with_open {A} path mode (body : pyval -> M A) :
  (forall f, propagating (body f)) -> propagating (with_open path mode body).
Proof.
  intros Hb w. rewrite with_open_run.
  destruct (propagating_prim
              (Call (Func "open") [PStr path; PStr mode] [("encoding", PStr "utf-8")])
              (open_action path mode) w) as [C1 F1].
  fold (open_ path mode) in C1, F1.
  destruct (res (open_ path mode w)) as [f|e] eqn:R; simpl.
  - specialize (C1 f eq_refl).
    destruct (Hb f (final (open_ path mode w))) as [C2 F2].
    assert (Hexit : is_exit (Ev (Call (Method f "__exit__") [] []) (Ok PNone)))
      by (exists f; reflexivity).
    assert (Hsucc : succeeded (Ev (Call (Method f "__exit__") [] []) (Ok PNone)))
      by reflexivity.
    split.
    + intros a Ha. apply Forall_app. split; [exact C1|].
      apply Forall_app. split; [eauto | repeat constructor].
    + destruct F2 as [F2|(pre & c & e & post & Et & Hpre & Hpost & Hres)].
      * left. simpl. apply Forall_app. split; [exact C1|].
        apply Forall_app. split; [exact F2 | repeat constructor].
      * right. exists (trace (open_ path mode w) ++ pre), c, e.
        exists (post ++ [Ev (Call (Method f "__exit__") [] []) (Ok PNone)]).
        simpl. rewrite Et. rewrite <- !app_assoc. simpl.
        repeat split; auto.
        -- apply Forall_app; split; eauto.
        -- apply Forall_app. split; [exact Hpost | repeat constructor; exact Hexit].
  - split; [discriminate |].
    destruct F1 as [F1|(pre & c & e' & post & Et & Hpre & Hpost & Hres)].
    + left. exact F1.
    + right. exists pre, c, e'. exists post. simpl. rewrite R in Hres. injection Hres as <-. repeat split; auto.
Qed.

Lemma propagating_warm_up n pipeline : propagating (Notebook.warm_up n pipeline).
Proof.
  induction n as [|n IH]; simpl.
  - apply propagating_ret.
  - apply propagating_bind; [apply propagating_prim | intros; exact IH].
Qed.

End Propagation.

Create HintDb propagation.
#[export] Hint Resolve propagating_ret propagating_lift propagating_prim
  propagating_warm_up : propagation.

Ltac propagating_step :=
  lazymatch goal with
  | |- propagating (bind _ _) => apply propagating_bind; [ | intros ]
  | |- propagating (match ?x with _ => _ end) => destruct x
  | |- propagating (with_open _ _ _) => apply propagating_with_open; intros
  | |- propagating _ => solve [auto with propagation]
  end.

Ltac propagating_cell :=
  unfold import_, sh, print, del, setattr, json_dump, json_load;
  unfold libcall; repeat propagating_step.

Section CellsPropagate.
Context `{P : Platform}.
Import Notebook.

Lemma propagating_generate_helper pipeline prompt :
  propagating (generate_helper pipeline prompt).
Proof. unfold generate_helper. propagating_cell. Qed.

Lemma propagating_report r : propagating (report r).
Proof. unfold report. propagating_cell. Qed.

Lemma propagating_load_pipeline model_id : propagating (cell_load_pipeline model_id).
Proof. unfold cell_load_pipeline. propagating_cell. Qed.

Lemma propagating_produce : propagating produce.
Proof.
  unfold produce, cell_install, cell_quantizer, cell_load, cell_quantize_save.
  propagating_cell.
Qed.

Lemma propagating_config_rewrite folder : propagating (cell_config_rewrite folder).
Proof. unfold cell_config_rewrite. propagating_cell. Qed.

Lemma propagating_notebook : propagating notebook.
Proof.
  pose proof propagating_generate_helper. pose proof propagating_report.
  pose proof propagating_load_pipeline. pose proof propagating_produce.
  pose proof propagating_config_rewrite.
  unfold notebook, cell_helper, cell_baseline, cell_cleanup, cell_quantized,
    cell_deploy.
  unfold import_, sh, print, del, setattr, json_dump, json_load; unfold libcall.
  repeat (first [ propagating_step | solve [auto] ]).
Qed.

End CellsPropagate.




(** ** What every event of the notebook looks like *)

Section Emits.
Context `{P : Platform}.
Variable Q : event -> Prop.

Lemma emits_ret {A} (a : A) : emits Q (ret a).
Proof. intros w. constructor. Qed.

Lemma emits_lift {A} (r : result A) : emits Q (lift r).
Proof. intros w. rewrite lift_run. constructor. Qed.

Lemma emits_prim c act : (forall r, Q (Ev c r)) -> emits Q (prim c act).
Proof. intros H w. rewrite prim_run. simpl. repeat constructor. apply H. Qed.

Lemma emits_bind {A B} (m : M A) (f : A -> M B) :
  emits Q m -> (forall a, emits Q (f a)) -> emits Q (bind m f).
Proof.
  intros Hm Hf w. rewrite bind_run. specialize (Hm w).
  destruct (res (m w)); simpl; [|exact Hm].
  apply Forall_app. split; [exact Hm | apply Hf].
Qed.

Lemma emits_with_open {A} path mode (body : pyval -> M A) :
  (forall r, Q (Ev (Call (Func "open") [PStr path; PStr mode]
                      [("encoding", PStr "utf-8")]) r)) ->
  (forall f, Q (Ev (Call (Method f "__exit__") [] []) (Ok PNone))) ->
  (forall f, emits Q (body f)) -> emits Q (with_open path mode body).
Proof.
  intros Ho Hx Hb w. rewrite with_open_run, open_trace.
  destruct (res (open_ path mode w)) as [f|e]; simpl.
  - constructor; [apply Ho|]. apply Forall_app. split; [apply Hb|].
    repeat constructor. apply Hx.
  - repeat constructor. apply Ho.
Qed.

End Emits.

Ltac emits_step tac :=
  lazymatch goal with
  | |- emits _ (bind _ _) => apply emits_bind; [ | intros ]
  | |- emits _ (match ?x with _ => _ end) => destruct x
  | |- emits _ (with_open _ _ _) => apply emits_with_open; [ intros; tac | intros; tac | intros ]
  | |- emits _ (prim _ _) => apply emits_prim; intros; tac
  | |- emits _ (ret _) => apply emits_ret
  | |- emits _ (lift _) => apply emits_lift
  end.

Ltac emits_all tac :=
  unfold import_, sh, print, del, setattr, json_dump, json_load;
  unfold libcall; repeat (emits_step tac).

Section Constructor.
Context `{P : Platform}.
Import Notebook.





End Constructor.

Lemma follows_runs `{P : Platform} {A} (m : M A) l w a w' t :
  follows m l -> runs m w a w' t -> labels t = l.
Proof.
  intros F R. destruct (runs_res _ _ _ _ _ R) as (Hr & _ & <-).
  apply F. rewrite Hr. reflexivity.
Qed.


(** C10, as amended.  The operations of every run come in one fixed order,
    that of [Ops.notebook]: setup, load, quantize, save with the rewrite of
    the configuration, load and benchmark of the baseline, cleanup, reload
    of the quantized model, benchmark of the quantized model, deploy.  A
    run that fails performs an initial part of it (and closes its files);
    a run that returns performs all of it.  In particular [quantize_model]
    never comes after a [save_pretrained], neither a [save_pretrained] nor
    a [json.dump] comes after the reload of the quantized model, and
    nothing comes after the start of the container. *)
Theorem notebook_order `{P : Platform} (w : world ext_state) :
  let t := labels (trace (Notebook.notebook w)) in
  sublist t Ops.notebook
  /\ (is_ok (res (Notebook.notebook w)) = true -> t = Ops.notebook)
  /\ never_after ".quantize_model" ".save_pretrained" t = true
  /\ never_after ".save_pretrained" reload_label t = true
  /\ never_after "json.dump" reload_label t = true
  /\ (forall a, never_after a "!docker" t = true)
  /\ Ops.notebook = Ops.before_cleanup ++ Ops.cleanup ++ Ops.after_cleanup.
Proof.
  simpl. destruct (follows_notebook w) as [S E].
  repeat split; try assumption; intros;
    try (eapply never_after_sublist; [exact S | reflexivity]).
Qed.

(** C10 as it is worded fails: on the demonstration platform the baseline
    benchmark reads its timer before the quantized model is reloaded. *)
Lemma reload_before_benchmark_fails : ~ reload_before_benchmark.
Proof.
  intros H. specialize (H (Demo.platform Demo.usual) Demo.start).
  vm_compute in H. discriminate H.
Qed.

Section Cleanup.
Context `{P : Platform}.
Import Notebook.

Lemma load_pipeline_runs model_id w tokenizer model pipe w' t :
  runs (cell_load_pipeline model_id) w (tokenizer, model, pipe) w' t ->
  exists r1 r2, t = load_pipeline_events model_id r1 r2 tokenizer model pipe.
Proof.
  unfold cell_load_pipeline, import_, libcall. intros H. run_inv.
  match goal with H : (_, _, _) = (_, _, _) |- _ => injection H as -> -> -> end.
  subst. eexists _, _. reflexivity.
Qed.

Lemma cleanup_runs pipe model tokenizer w r w' t :
  runs (cell_cleanup pipe model tokenizer) w r w' t ->
  t = cleanup_events pipe model tokenizer (Ok r).
Proof.
  unfold cell_cleanup, del, libcall. intros H. run_inv.
  repeat match goal with H : (_, _) = (_, _) |- _ => injection H as <- <- end.
  subst. reflexivity.
Qed.

End Cleanup.

(** C8. GPU memory is released explicitly once: [torch.cuda.empty_cache]
    is called at most once in any run and exactly once in a run that
    returns, by the cleanup cell, right after the [del] of the pipeline,
    the model and the tokenizer that the baseline cell loaded, after the
    baseline benchmark and before the quantized model is loaded.  No other
    operation of the notebook releases GPU memory. *)
Theorem single_gpu_release `{P : Platform} (w : world ext_state) :
  let o := Notebook.notebook w in
  (count "torch.cuda.empty_cache" (labels (trace o)) <= 1)%nat
  /\ (res o = Ok tt ->
      count "torch.cuda.empty_cache" (labels (trace o)) = 1%nat
      /\ exists before r1 r2 tokenizer model pipe benchmark r after,
           trace o
           = before
             ++ load_pipeline_events Notebook.hub_model_id r1 r2 tokenizer model pipe
             ++ benchmark
             ++ cleanup_events pipe model tokenizer r
             ++ after
           /\ labels before
              = Ops.produce ++ Ops.config_rewrite "quantized_llama" ++ Ops.helper
           /\ labels benchmark = Ops.baseline
           /\ labels after = Ops.after_cleanup).
Proof.
  simpl. destruct (follows_notebook w) as [S E]. split.
  - etransitivity; [apply count_sublist; exact S | vm_compute; lia].
  - intros Hok. split; [rewrite E by (rewrite Hok; reflexivity); reflexivity|].
    apply runs_intro in Hok. revert Hok.
    generalize (final (Notebook.notebook w)) (trace (Notebook.notebook w)).
    intros w' t H. unfold Notebook.notebook in H.
    apply runs_bind_inv in H as (folder & w1 & t1 & ? & H1 & H & ->).
    pose proof (produce_folder w folder (proj1 (runs_res _ _ _ _ _ H1))) as ->.
    apply runs_bind_inv in H as (? & w2 & t2 & ? & H2 & H & ->).
    apply runs_bind_inv in H as (? & w3 & t3 & ? & H3 & H & ->).
    apply runs_bind_inv in H as ([[tokenizer model] pipe] & w4 & t4 & ? & H4 & H & ->).
    apply runs_bind_inv in H as (? & w5 & t5 & ? & H5 & H & ->).
    apply runs_bind_inv in H as (r & w6 & t6 & ? & H6 & H & ->).
    apply runs_bind_inv in H as ([[q_tokenizer q_model] qtq_pipe] & w7 & t7 & ? & H7 & H & ->).
    apply runs_bind_inv in H as (? & w8 & t8 & ? & H8 & H & ->).
    apply runs_bind_inv in H as (? & w9 & t9 & ? & H9 & H & ->).
    apply runs_ret_inv in H as (_ & _ & ->).
    apply load_pipeline_runs in H4 as (r1 & r2 & ->).
    apply cleanup_runs in H6 as ->.
    exists (t1 ++ t2 ++ t3), r1, r2, tokenizer, model, pipe, t5, (Ok r),
      (t7 ++ t8 ++ t9).
    repeat split.
    + rewrite <- !app_assoc. rewrite app_nil_r. reflexivity.
    + unfold labels. rewrite !map_app. fold (labels t1) (labels t2) (labels t3).
      rewrite (follows_runs _ _ _ _ _ _ follows_produce H1).
      rewrite (follows_runs _ _ _ _ _ _ (follows_config_rewrite _) H2).
      unfold Notebook.cell_helper, import_, libcall in H3.
      apply runs_prim_inv in H3 as (_ & ->). reflexivity.
    + exact (follows_runs _ _ _ _ _ _ (follows_baseline _) H5).
    + unfold labels. rewrite !map_app. fold (labels t7) (labels t8) (labels t9).
      rewrite (follows_runs _ _ _ _ _ _ (follows_load_pipeline _) H7).
      rewrite (follows_runs _ _ _ _ _ _ (follows_quantized _) H8).
      rewrite (follows_runs _ _ _ _ _ _ follows_deploy H9). reflexivity.
Qed.

(** C9. The inference server is started by one [docker run] command line,
    the last operation of the notebook.  Its [-e] options are exactly
    MODEL_ID (the model path), QUANTIZE=gptq, NUM_SHARD=1,
    MAX_INPUT_LENGTH=1562 and MAX_TOTAL_TOKENS=4096, and its image is the
    fixed ghcr.io/huggingface/text-generation-inference:1.0.3. *)
Theorem deploy_invocation `{P : Platform} (w : world ext_state) :
  let ws := Shell.words Notebook.deploy_command in
  trace (Notebook.cell_deploy w)
  = [Ev (Call (Func "!") [PStr Notebook.deploy_command] []) (Ok PNone)]
  /\ ws = ["docker"; "run"; "--gpus"; "all"; "-ti"; "-p"; "8080:80";
           "-e"; "MODEL_ID=/home/ubuntu/test-gptq"; "-e"; "QUANTIZE=gptq";
           "-e"; "NUM_SHARD=1"; "-e"; "MAX_INPUT_LENGTH=1562";
           "-e"; "MAX_TOTAL_TOKENS=4096";
           "-v"; "/home/ubuntu/test-gptq:/home/ubuntu/test-gptq";
           "ghcr.io/huggingface/text-generation-inference:1.0.3"]
  /\ Shell.docker_env ws
     = [("MODEL_ID", "/home/ubuntu/test-gptq"); ("QUANTIZE", "gptq");
        ("NUM_SHARD", "1"); ("MAX_INPUT_LENGTH", "1562");
        ("MAX_TOTAL_TOKENS", "4096")]
  /\ Shell.docker_image ws
     = Some "ghcr.io/huggingface/text-generation-inference:1.0.3"
  /\ last (labels (trace (Notebook.cell_deploy w))) = last Ops.notebook.
Proof.
  simpl. repeat split; try reflexivity.
Qed.

(** ** The benchmarking helper *)

Section Helper.
Context `{P : Platform}.
Import Notebook.

Lemma warm_up_runs n pipeline w u w' t :
  runs (warm_up n pipeline) w u w' t ->
  length t = n /\ Forall (fun ev => ev_call ev = warm_up_call pipeline) t.
Proof.
  revert w t. induction n as [|n IH]; simpl; intros w t H.
  - apply runs_ret_inv in H as (_ & _ & ->). split; [reflexivity | constructor].
  - apply runs_bind_inv in H as (v & w1 & t1 & t2 & H1 & H2 & ->).
    unfold libcall in H1. apply runs_prim_inv in H1 as (_ & ->).
    destruct (IH _ _ H2) as [L F]. simpl. split; [lia|].
    constructor; [reflexivity | exact F].
Qed.

Lemma py_sub_numeric a b v :
  py_sub a b = Ok v -> (exists x, v = PFloat x) \/ (exists z, v = PInt z).
Proof.
  destruct a, b; simpl; intros [= <-]; eauto.
Qed.

Lemma py_truediv_numeric v n :
  (exists x, v = PFloat x) \/ (exists z, v = PInt z) ->
  (n = 0%Z -> py_truediv v n = Raise ZeroDivisionError)
  /\ (n <> 0%Z -> exists q, py_truediv v n = Ok q).
Proof.
  intros [[x ->]|[z ->]]; simpl; (split; [intros ->; reflexivity|]);
    intros Hn; apply Z.eqb_neq in Hn; rewrite Hn; eauto.
Qed.

End Helper.

(** C4. [generate_helper] calls the pipeline five times on "Warm up", then
    reads the clock, calls the pipeline once on the prompt and reads the
    clock again: the two readings enclose that one call and nothing else.
    The latency it reports is computed from those two readings and from
    the output of that one call alone: the difference of the readings,
    divided by the number of token ids of the text generated beyond the
    prompt, times 1000, rounded to two digits. *)
Theorem latency_of_one_timed_call `{P : Platform} (pipeline : pyval)
  (prompt : string) (w : world ext_state) (r : pyval) :
  res (Notebook.generate_helper pipeline prompt w) = Ok r ->
  exists warm start out end_ text elapsed encoding input_ids n per_token,
    trace (Notebook.generate_helper pipeline prompt w)
    = warm ++ [Ev clock_call (Ok start);
               Ev (timed_call pipeline prompt) (Ok out);
               Ev clock_call (Ok end_);
               Ev (tokenizer_call pipeline text) (Ok encoding)]
    /\ length warm = 5%nat
    /\ Forall (fun ev => ev_call ev = warm_up_call pipeline) warm
    /\ Notebook.text_beyond out prompt = Ok text
    /\ py_sub end_ start = Ok elapsed
    /\ getitem encoding (PStr "input_ids") = Ok input_ids
    /\ py_len input_ids = Ok n
    /\ py_truediv elapsed n = Ok per_token
    /\ r = PDict [("text", text);
                  ("latency",
                   PStr (Notebook.latency_string (per_token * float_of_Z 1000)))].
Proof.
  intros H. apply runs_intro in H. revert H.
  generalize (final (Notebook.generate_helper pipeline prompt w))
             (trace (Notebook.generate_helper pipeline prompt w)).
  intros w' t H. unfold Notebook.generate_helper, libcall in H.
  run_inv.
  match goal with H : runs (Notebook.warm_up _ _) _ _ _ _ |- _ =>
    apply warm_up_runs in H as [Hlen Hall] end.
  subst.
  repeat match goal with H : Ok _ = Ok _ |- _ => injection H as -> end.
  eexists _, _, _, _, _, _, _, _, _, _.
  split; [reflexivity|]. repeat split; eauto.
  match goal with H1 : Notebook.text_beyond ?o ?p = Ok ?a,
                  H2 : Notebook.text_beyond ?o ?p = Ok ?b |- _ =>
    rewrite H1 in H2; injection H2 as -> end.
  reflexivity.
Qed.

(** Forward execution of the next operation, on both of its results. *)
Ltac forward :=
  repeat first [ rewrite bind_assoc | rewrite bind_ret_l ];
  match goal with
  | |- context [bind (prim ?c ?act) ?f ?w] =>
      rewrite (bind_run (prim c act) f w), (prim_run c act w);
      let E := fresh "E" in
      destruct (act w) as [[?|?] ?] eqn:E; cbn [res final trace fst snd]
  | |- context [bind (lift ?r) ?f ?w] =>
      rewrite (bind_run (lift r) f w), (lift_run r w);
      let E := fresh "E" in
      destruct r eqn:E; cbn [res final trace fst snd]
  end.

Lemma last_snoc_eq {A} (l pre : list A) (x : A) :
  l = pre ++ [x] -> last l = Some x.
Proof. intros ->. apply last_snoc. Qed.

(** C5. The latency divides by the number of token ids of the text
    generated beyond the prompt.  Whenever the tokenizer answers (it is the
    last operation of the helper) with zero ids, [generate_helper] raises
    [ZeroDivisionError]; with one id or more, the division is defined and
    the helper returns. *)
Theorem zero_tokens_divide_by_zero `{P : Platform} (pipeline : pyval)
  (prompt : string) (w : world ext_state) (pre : list event)
  (text encoding input_ids : pyval) (n : Z) :
  trace (Notebook.generate_helper pipeline prompt w)
  = pre ++ [Ev (tokenizer_call pipeline text) (Ok encoding)] ->
  getitem encoding (PStr "input_ids") = Ok input_ids ->
  py_len input_ids = Ok n ->
  (n = 0%Z ->
   res (Notebook.generate_helper pipeline prompt w) = Raise ZeroDivisionError)
  /\ (n <> 0%Z ->
      exists r, res (Notebook.generate_helper pipeline prompt w) = Ok r).
Proof.
  unfold Notebook.generate_helper, libcall. cbn [Notebook.warm_up]. unfold libcall.
  repeat (forward;
          [ | intros H; apply last_snoc_eq in H; cbn in H; discriminate H ]).
  forward; [forward; [forward|] |];
    intros H Hids Hlen; apply last_snoc_eq in H; cbn in H;
    injection H as <- <-; try congruence;
    match goal with E : py_sub _ _ = Ok ?v |- _ =>
      destruct (py_truediv_numeric v n (py_sub_numeric _ _ _ E)) as [Hz Hnz] end;
    (assert (Hn : n = 0%Z \/ n <> 0%Z) by lia);
    destruct Hn as [Hn|Hn];
    [ specialize (Hz Hn) | destruct (Hnz Hn) as [q Hq]
    | specialize (Hz Hn) | destruct (Hnz Hn) as [q Hq] ];
    (split; intros Hn'; try contradiction; try congruence).
  rewrite bind_run, lift_run. cbn. eauto.
Qed.

(** ** Dictionaries and files *)









(** X1. When the loaded configuration is an object without a
    ["quantization_config"] key, the rewrite raises
    [KeyError("quantization_config")] before it opens the file for writing:
    the file is read and closed, and the world stays as it was. *)
Theorem config_rewrite_missing_section `{P : Platform} (w : world ext_state)
  (folder : string) (config : list (string * pyval)) :
  let path := path_join folder "config.json" in
  refuses path "r" w = None ->
  fs w !! path = Some [Doc (PDict config)] ->
  dict_get config "quantization_config" = None ->
  res (Notebook.cell_config_rewrite folder w) = Raise (KeyError "quantization_config")
  /\ final (Notebook.cell_config_rewrite folder w) = w
  /\ labels (trace (Notebook.cell_config_rewrite folder w))
     = ["open " +:+ path; "json.load"; ".__exit__"].
Proof.
  intros path Hr Hfile Hq.
  assert (Hrun : exists f r,
             Notebook.cell_config_rewrite folder w
             = Out (Raise (KeyError "quantization_config")) w
                 [Ev (Call (Func "open") [PStr path; PStr "r"]
                        [("encoding", PStr "utf-8")]) (Ok f);
                  Ev (Call (Func "json.load") [f] []) r;
                  Ev (Call (Method f "__exit__") [] []) (Ok PNone)]).
  { unfold Notebook.cell_config_rewrite. fold path. eexists _, _.
    rewrite (with_open_run path "r"). unfold open_. rewrite prim_run.
    unfold open_action. rewrite Hr. simpl. rewrite Hfile. simpl.
    unfold json_load. rewrite bind_run, prim_run. simpl. rewrite Hfile. simpl.
    rewrite bind_run, lift_run. unfold setitem2. simpl. rewrite Hq. simpl.
    reflexivity. }
  destruct Hrun as (f & r & ->). simpl. auto.
Qed.

(** ** The quantization parameters on disk *)

Lemma attr_set_attr_ne {X} (w : world X) h h' name k v :
  name <> k -> attr (set_attr h' name v w) h k = attr w h k.
Proof.
  intros Hne. unfold attr, set_attr. simpl.
  destruct (decide (h' = h)) as [->|Hh].
  - rewrite lookup_insert_eq. rewrite lookup_insert_ne by exact Hne.
    destruct (heap w !! h); simpl; [reflexivity | apply lookup_empty].
  - rewrite lookup_insert_ne by exact Hh. reflexivity.
Qed.

Lemma attr_set_attr_eq {X} (w : world X) h name v :
  attr (set_attr h name v w) h name = Some v.
Proof.
  unfold attr, set_attr. simpl. rewrite lookup_insert_eq. apply lookup_insert_eq.
Qed.

Lemma attr_write_file {X} (w : world X) path c h k :
  attr (write_file path c w) h k = attr w h k.
Proof. reflexivity. Qed.

Section QuantizeConfig.
Context `{P : Platform}.
Hypothesis contract : quantizer_contract P.
Import Notebook.

Lemma cell_quantizer_runs w q w' t :
  runs cell_quantizer w q w' t ->
  exists h r, q = PObj h /\ attr w' h "bits" = Some (PInt 4)
    /\ t = [Ev (Call (Func "import") [PStr "optimum.gptq"] []) (Ok r);
            Ev quantizer_call (Ok q);
            Ev (Call (Func "setattr") [q; PStr "quant_method"; PStr "gptq"] [])
               (Ok PNone)].
Proof.
  unfold cell_quantizer, import_, setattr, libcall. intros H. run_inv. subst.
  match goal with H : match ?q with _ => _ end = _ |- _ =>
    destruct q; try discriminate H; injection H as <- <- end.
  match goal with H : lib (Call (Func "GPTQQuantizer") _ _) _ = _ |- _ =>
    pose proof (constructor_stores_bits contract _ _ _ _ H) as Hb end.
  eexists _, _. split; [reflexivity|]. split; [|reflexivity].
  rewrite attr_set_attr_ne by discriminate. exact Hb.
Qed.

Lemma cell_load_keeps_bits w r w' t h v :
  runs cell_load w r w' t -> attr w h "bits" = Some v -> attr w' h "bits" = Some v.
Proof.
  unfold cell_load, import_, libcall. intros H Hb. run_inv. subst.
  repeat match goal with H : lib _ _ = (_, ?w') |- attr ?w' _ _ = _ =>
    apply (bits_stable contract _ _ _ _ _ _ H) end.
  exact Hb.
Qed.

Lemma cell_quantize_save_runs w h model tokenizer model_id folder w' t :
  attr w h "bits" = Some (PInt 4) ->
  runs (cell_quantize_save (PObj h) model tokenizer model_id) w folder w' t ->
  folder = "quantized_llama"
  /\ exists pre params,
       t = pre ++ quantize_config_events
                    (path_join folder "quantize_config.json") (PObj h) (PDict params)
       /\ In ".quantize_model" (labels pre)
       /\ fs w' !! path_join folder "quantize_config.json" = Some [Doc (PDict params)]
       /\ dict_get params "bits" = Some (PInt 4)
       /\ dict_get params "disable_exllama" = Some (PBool false).
Proof.
  unfold cell_quantize_save, import_, setattr, json_dump, libcall. intros Hb H.
  run_inv. subst.
  match goal with H : runs (open_ _ _) _ _ _ _ |- _ =>
    unfold open_ in H; apply runs_prim_inv in H as (H & _);
    unfold open_action in H; destruct (refuses _ _ _); [discriminate H|];
    rewrite String.eqb_refl in H; injection H as <- <- end.
  match goal with H : (Ok PNone, set_attr _ _ _ _) = _ |- _ =>
    injection H as <- <- end.
  match goal with H : lib (Call (Method _ "to_dict") _ _) _ = _ |- _ =>
    destruct (to_dict_reports contract _ _ _ _ H) as (Hfs & params & -> & Hp) end.
  match goal with H : (if String.eqb "w" "w" then _ else _) = _ |- _ =>
    rewrite String.eqb_refl in H;
    destruct (json_serializable (PDict params)); [|discriminate H];
    injection H as <- <- end.
  split; [reflexivity|]. cbn [app].
  match goal with |- exists pre _, ?a :: ?b :: ?c :: ?d :: ?e :: ?f :: _ = _ /\ _ =>
    exists [a; b; c; d; e; f], params end.
  split; [|split; [|split; [|split]]].
  - reflexivity.
  - right. right. left. reflexivity.
  - unfold append_file, write_file. cbn [fs]. rewrite lookup_insert_eq, Hfs.
    unfold set_attr, write_file. cbn [fs]. rewrite lookup_insert_eq. reflexivity.
  - apply Hp; [left; reflexivity|].
    rewrite attr_set_attr_ne by discriminate. rewrite attr_write_file.
    repeat match goal with H : lib _ _ = (_, ?w') |- attr ?w' _ _ = _ =>
      apply (bits_stable contract _ _ _ _ _ _ H) end.
    exact Hb.
  - apply Hp; [right; reflexivity|]. apply attr_set_attr_eq.
Qed.

End QuantizeConfig.

(** C1. When cells 1 to 5 return, the file [quantize_config.json] of the
    save folder holds one JSON document: the dictionary that
    [quantizer.to_dict()] returned, for the quantizer of cell 3.  The
    notebook sets [disable_exllama] to [False] on that quantizer after the
    file is opened and before [to_dict] is called, and all of this comes
    after [quantize_model].  With a quantizer class that does what
    optimum's does ([quantizer_contract]), the document records
    [bits = 4] and [disable_exllama = False]. *)
Theorem quantize_config_written `{P : Platform} (contract : quantizer_contract P)
  (w : world ext_state) (folder : string) :
  res (Notebook.produce w) = Ok folder ->
  folder = "quantized_llama"
  /\ path_join folder "quantize_config.json" = "quantized_llama/quantize_config.json"
  /\ exists pre quantizer params,
       trace (Notebook.produce w)
       = pre ++ quantize_config_events (path_join folder "quantize_config.json")
                  quantizer (PDict params)
       /\ In (Ev quantizer_call (Ok quantizer)) pre
       /\ In ".quantize_model" (labels pre)
       /\ fs (final (Notebook.produce w)) !! path_join folder "quantize_config.json"
          = Some [Doc (PDict params)]
       /\ dict_get params "bits" = Some (PInt 4)
       /\ dict_get params "disable_exllama" = Some (PBool false).
Proof.
  intros H. apply runs_intro in H. revert H.
  generalize (final (Notebook.produce w)) (trace (Notebook.produce w)).
  intros w' t H. unfold Notebook.produce in H.
  apply runs_bind_inv in H as (? & w1 & t1 & ? & H1 & H & ->).
  apply runs_bind_inv in H as (q & w2 & t2 & ? & H2 & H & ->).
  apply runs_bind_inv in H as ([[model_id tokenizer] model] & w3 & t3 & t4 & H3 & H & ->).
  destruct (cell_quantizer_runs contract _ _ _ _ H2) as (h & r & -> & Hb & Ht2).
  pose proof (cell_load_keeps_bits contract _ _ _ _ _ _ H3 Hb) as Hb3.
  destruct (cell_quantize_save_runs contract _ _ _ _ _ _ _ _ Hb3 H)
    as (-> & pre & params & -> & Hq & Hfs & Hbits & Hex).
  split; [reflexivity|]. split; [reflexivity|].
  exists (t1 ++ t2 ++ t3 ++ pre), (PObj h), params.
  split; [|split; [|split; [|split; [|split]]]]; try assumption.
  - rewrite <- !app_assoc. reflexivity.
  - apply in_or_app. right. apply in_or_app. left. rewrite Ht2.
    right. left. reflexivity.
  - unfold labels. rewrite !map_app. apply in_or_app. right.
    apply in_or_app. right. apply in_or_app. right. exact Hq.
Qed.

(** ** The demonstration platform keeps the quantizer contract *)

Module DemoFacts.
Import Demo.

Lemma attrs_of_lookup kw k : attrs_of kw !! k = dict_get kw k.
Proof.
  induction kw as [|[k' v] kw IH]; simpl; [apply lookup_empty|].
  destruct (String.eqb_spec k' k) as [->|Hne].
  - apply lookup_insert_eq.
  - rewrite lookup_insert_ne by exact Hne. exact IH.
Qed.

Lemma attr_alloc a (w : world Z) h k v :
  attr w h k = Some v -> attr (alloc a w).2 h k = Some v.
Proof.
  unfold attr, alloc. cbn [snd heap]. intros H.
  destruct (heap w !! h) as [o|] eqn:E; [|discriminate].
  rewrite lookup_insert_ne; [rewrite E; exact H|].
  intros Heq. pose proof (is_fresh (dom (heap w))) as Hf.
  rewrite Heq in Hf. apply Hf. apply elem_of_dom. eauto.
Qed.

Lemma attr_tick d (w : world Z) h k : attr (tick d w) h k = attr w h k.
Proof. reflexivity. Qed.

Lemma handler_keeps_bits s c (w : world Z) r w' h v :
  handler s c w = (r, w') -> attr w h "bits" = Some v -> attr w' h "bits" = Some v.
Proof.
  intros H Hb. unfold handler, func, method, invoke in H.
  repeat case_match; simplify_eq; try assumption;
    repeat first
      [ assumption
      | rewrite attr_tick
      | rewrite attr_write_file
      | rewrite attr_set_attr_ne by discriminate
      | match goal with
        | E : alloc ?a ?w0 = (_, ?w1) |- attr ?w1 _ _ = _ =>
            replace w1 with (alloc a w0).2 by (rewrite E; reflexivity);
            apply attr_alloc
        end ].
Qed.

Lemma contract : quantizer_contract (platform usual).
Proof.
  split.
  - intros kw w h w'. cbn [lib platform]. unfold handler. cbn [fail_on usual target].
    unfold func. cbn [String.eqb Ascii.eqb Bool.eqb kwargs]. unfold alloc.
    intros [= <- <-]. unfold attr. cbn [heap].
    rewrite lookup_insert_eq, lookup_insert_ne by discriminate.
    apply attrs_of_lookup.
  - intros c w r w' h v. apply handler_keeps_bits.
  - intros h w d w'. cbn [lib platform]. unfold handler. cbn [fail_on usual target].
    unfold method. cbn [String.eqb Ascii.eqb Bool.eqb].
    intros [= <- <-]. split; [reflexivity|].
    eexists. split; [reflexivity|].
    intros k v [->| ->] Hv;
      cbn [map dict_get String.eqb Ascii.eqb Bool.eqb the_attr];
      exact (f_equal (fun o => Some (default PNone o)) Hv).
Qed.

End DemoFacts.

(** ** The theorems at work on the demonstration platform *)

Module Witness.
Import Notebook.

Example notebook_returns : res (Demo.run Demo.usual notebook) = Ok tt.
Proof. vm_compute. reflexivity. Qed.

Example notebook_operations :
  labels (trace (Demo.run Demo.usual notebook)) = Ops.notebook.
Proof. vm_compute. reflexivity. Qed.

Example config_after_save :
  fs (final (Demo.run Demo.usual produce)) !! "quantized_llama/config.json"
  = Some [Doc (PDict [("model_type", PStr "llama");
                      ("quantization_config",
                       PDict [("bits", PInt 4); ("dataset", PStr "wikitext2");
                              ("model_seqlen", PInt 4096);
                              ("quant_method", PStr "gptq");
                              ("disable_exllama", PBool true)]);
                      ("torch_dtype", PStr "float16")])].
Proof. vm_compute. reflexivity. Qed.

Example config_after_rewrite :
  fs (final (Demo.run Demo.usual notebook)) !! "quantized_llama/config.json"
  = Some [Doc (PDict [("model_type", PStr "llama");
                      ("quantization_config",
                       PDict [("bits", PInt 4); ("dataset", PStr "wikitext2");
                              ("model_seqlen", PInt 4096);
                              ("quant_method", PStr "gptq");
                              ("disable_exllama", PBool false)]);
                      ("torch_dtype", PStr "float16")])].
Proof. vm_compute. reflexivity. Qed.

Lemma config_rewrite_missing_section_witness :
  let w := write_file "m/config.json" [Doc (PDict [("model_type", PStr "llama")])]
             Demo.start in
  let o := @cell_config_rewrite (Demo.platform Demo.usual) "m" w in
  res o = Raise (KeyError "quantization_config")
  /\ final o = w
  /\ labels (trace o) = ["open m/config.json"; "json.load"; ".__exit__"].
Proof.
  intros w.
  apply (config_rewrite_missing_section (P := Demo.platform Demo.usual) w "m"
           [("model_type", PStr "llama")]).
  - reflexivity.
  - vm_compute. reflexivity.
  - reflexivity.
Defined.

Lemma quantize_config_written_witness :
  res (Demo.run Demo.usual produce) = Ok "quantized_llama"
  /\ exists params,
       fs (final (Demo.run Demo.usual produce)) !! "quantized_llama/quantize_config.json"
       = Some [Doc (PDict params)]
       /\ dict_get params "bits" = Some (PInt 4)
       /\ dict_get params "disable_exllama" = Some (PBool false).
Proof.
  assert (H : res (Demo.run Demo.usual produce) = Ok "quantized_llama")
    by (vm_compute; reflexivity).
  split; [exact H|].
  destruct (quantize_config_written DemoFacts.contract Demo.start
              "quantized_llama" H)
    as (_ & _ & pre & q & params & _ & _ & _ & Hfs & Hbits & Hex).
  exists params. split; [exact Hfs | split; [exact Hbits | exact Hex]].
Defined.

Lemma latency_of_one_timed_call_witness :
  res (Demo.run Demo.usual (generate_helper (PObj 0) "Hi"))
  = Ok (PDict [("text", PStr "Write a request for PTO");
               ("latency", PStr "125.00ms/token")])
  /\ exists warm timed,
       trace (Demo.run Demo.usual (generate_helper (PObj 0) "Hi")) = warm ++ timed
       /\ length warm = 5%nat /\ length timed = 4%nat.
Proof.
  assert (H : res (Demo.run Demo.usual (generate_helper (PObj 0) "Hi"))
              = Ok (PDict [("text", PStr "Write a request for PTO");
                           ("latency", PStr "125.00ms/token")]))
    by (vm_compute; reflexivity).
  split; [exact H|].
  destruct (latency_of_one_timed_call (P := Demo.platform Demo.usual)
              (PObj 0) "Hi" Demo.start _ H)
    as (warm & ? & ? & ? & ? & ? & ? & ? & ? & ? & Ht & Hlen & _).
  eexists warm, _. split; [exact Ht | split; [exact Hlen | reflexivity]].
Defined.

Lemma zero_tokens_divide_by_zero_witness :
  res (Demo.run Demo.silent (generate_helper (PObj 0) "Hi"))
  = Raise ZeroDivisionError.
Proof.
  refine (proj1 (zero_tokens_divide_by_zero (P := Demo.platform Demo.silent)
                   (PObj 0) "Hi" Demo.start
                   (take 8 (trace (Demo.run Demo.silent (generate_helper (PObj 0) "Hi"))))
                   (PStr "") (PDict [("input_ids", PList [])]) (PList []) 0
                   _ _ _) _);
    vm_compute; reflexivity.
Defined.



Lemma single_gpu_release_witness :
  count "torch.cuda.empty_cache" (labels (trace (Demo.run Demo.usual notebook)))
  = 1%nat.
Proof.
  apply (proj2 (single_gpu_release (P := Demo.platform Demo.usual) Demo.start)).
  vm_compute. reflexivity.
Defined.

End Witness.

(** ** No operation is skipped *)

Lemma take_clip {A} (n : nat) (l1 l2 : list A) :
  exists m, take n l1 = take m (l1 ++ l2).
Proof.
  destruct (le_lt_dec n (length l1)) as [H|H].
  - exists n. rewrite take_app_le by exact H. reflexivity.
  - exists (length l1). rewrite take_app_length, take_ge by lia. reflexivity.
Qed.

Section InOrder.
Context `{P : Platform}.

Lemma in_order_eq {A} (m : M A) l l' : in_order m l' -> l' = l -> in_order m l.
Proof. intros H <-. exact H. Qed.

Lemma in_order_ret {A} (a : A) : in_order (ret a) [].
Proof. intros w. split; [reflexivity | exists 0%nat, 0%nat; reflexivity]. Qed.

Lemma in_order_lift {A} (r : result A) : in_order (lift r) [].
Proof.
  intros w. rewrite lift_run. split; [reflexivity | exists 0%nat, 0%nat; reflexivity].
Qed.

Lemma in_order_prim c act l : op_label c = l -> in_order (prim c act) [l].
Proof.
  intros <- w. rewrite prim_run. simpl.
  split; [reflexivity | exists 1%nat, 0%nat; reflexivity].
Qed.

Lemma in_order_bind_when {A B} (Q : A -> Prop) (m : M A) (f : A -> M B) l1 l2 :
  in_order m l1 -> (forall w a, res (m w) = Ok a -> Q a) ->
  (forall a, Q a -> in_order (f a) l2) -> in_order (bind m f) (l1 ++ l2).
Proof.
  intros Hm HQ Hf w. rewrite bind_run. destruct (Hm w) as [E1 (n1 & k1 & S1)].
  destruct (res (m w)) as [a|e] eqn:R; simpl.
  - destruct (Hf a (HQ w a R) (final (m w))) as [E2 (n2 & k2 & S2)].
    unfold labels in *. rewrite map_app, E1 by reflexivity. split.
    + intros Hok. rewrite E2 by exact Hok. reflexivity.
    + exists (length l1 + n2)%nat, k2. rewrite S2, take_app_add, app_assoc.
      reflexivity.
  - split; [discriminate|].
    destruct (take_clip n1 l1 l2) as [m' Hm']. exists m', k1.
    rewrite <- Hm'. exact S1.
Qed.

Lemma in_order_bind {A B} (m : M A) (f : A -> M B) l1 l2 :
  in_order m l1 -> (forall a, in_order (f a) l2) -> in_order (bind m f) (l1 ++ l2).
Proof.
  intros Hm Hf. apply (in_order_bind_when (fun _ => True)); auto.
Qed.

Lemma in_order_with_open {A} path mode (body : pyval -> M A) l :
  (forall f, in_order (body f) l) ->
  in_order (with_open path mode body) (("open " +:+ path) :: l ++ [".__exit__"]).
Proof.
  intros Hb w. rewrite with_open_run, open_trace.
  destruct (res (open_ path mode w)) as [f|e]; simpl.
  - destruct (Hb f (final (open_ path mode w))) as [E (n & k & HS)].
    unfold labels in *. rewrite map_app. simpl. split.
    + intros Hok. rewrite E by exact Hok. reflexivity.
    + destruct (take_clip n l [".__exit__"]) as [m' Hm'].
      exists (S m'), (S k).
      rewrite HS, Hm', replicate_S_end. cbn [take].
      rewrite <- !app_assoc. reflexivity.
  - split; [discriminate | exists 1%nat, 0%nat; reflexivity].
Qed.

End InOrder.

Ltac in_order_step :=
  lazymatch goal with
  | |- in_order (bind _ _) _ => eapply in_order_bind; [ | intros ]
  | |- in_order (match ?x with _ => _ end) _ => destruct x
  | |- in_order (prim _ _) _ => eapply in_order_prim; cbv; reflexivity
  | |- in_order (ret _) _ => apply in_order_ret
  | |- in_order (lift _) _ => apply in_order_lift
  | |- in_order (with_open _ _ _) _ => eapply in_order_with_open; intros
  end.

Ltac in_order_cell :=
  eapply in_order_eq;
  [ unfold import_, sh, print, del, setattr, json_dump, json_load;
    unfold libcall; repeat in_order_step
  | try reflexivity ].

Section CellsInOrder.
Context `{P : Platform}.
Import Notebook.

Lemma in_order_warm_up n pipeline :
  in_order (warm_up n pipeline) (replicate n "()").
Proof.
  induction n as [|n IH]; simpl.
  - apply in_order_ret.
  - eapply in_order_eq.
    + eapply in_order_bind; [unfold libcall; in_order_step | intros; exact IH].
    + reflexivity.
Qed.

Lemma in_order_generate_helper pipeline prompt :
  in_order (generate_helper pipeline prompt) Ops.generate.
Proof.
  unfold generate_helper. eapply in_order_eq.
  - eapply in_order_bind; [apply in_order_warm_up | intros].
    unfold libcall. repeat in_order_step.
  - reflexivity.
Qed.

Lemma in_order_report r : in_order (report r) Ops.report.
Proof. unfold report. in_order_cell. Qed.

Lemma in_order_load_pipeline model_id :
  in_order (cell_load_pipeline model_id) (Ops.load_pipeline model_id).
Proof. unfold cell_load_pipeline. in_order_cell. Qed.

Lemma in_order_produce : in_order produce Ops.produce.
Proof.
  unfold produce. eapply in_order_eq.
  - eapply in_order_bind; [unfold cell_install; in_order_cell | intros].
    eapply in_order_bind; [unfold cell_quantizer; in_order_cell | intros].
    eapply (in_order_bind_when (fun r => r.1.1 = hub_model_id));
      [unfold cell_load; in_order_cell | apply cell_load_model_id | ].
    intros [[model_id tokenizer] model]. simpl. intros ->.
    unfold cell_quantize_save. in_order_cell.
  - reflexivity.
Qed.

Lemma in_order_notebook : in_order notebook Ops.notebook.
Proof.
  unfold notebook. eapply in_order_eq.
  - eapply (in_order_bind_when (fun r => r = "quantized_llama"));
      [apply in_order_produce | apply produce_folder | intros folder ->].
    eapply in_order_bind; [unfold cell_config_rewrite; in_order_cell | intros].
    eapply in_order_bind; [unfold cell_helper; in_order_cell | intros].
    eapply in_order_bind; [apply in_order_load_pipeline | intros [[tokenizer model] pipe]].
    eapply in_order_bind.
    { unfold cell_baseline. eapply in_order_bind; [in_order_cell | intros].
      eapply in_order_bind; [apply in_order_generate_helper | intros].
      eapply in_order_bind; [apply in_order_report | intros; apply in_order_ret]. }
    intros.
    eapply in_order_bind; [unfold cell_cleanup; in_order_cell | intros].
    eapply in_order_bind; [apply in_order_load_pipeline | intros [[q_tokenizer q_model] qtq_pipe]].
    eapply in_order_bind.
    { unfold cell_quantized.
      eapply in_order_bind; [apply in_order_generate_helper | intros].
      eapply in_order_bind; [apply in_order_report | intros; apply in_order_ret]. }
    intros.
    eapply in_order_bind; [unfold cell_deploy; in_order_cell | intros; apply in_order_ret].
  - reflexivity.
Qed.

End CellsInOrder.

(** X2. No operation is skipped.  In every run of the notebook the
    operations performed are an initial segment of the notebook's fixed
    sequence, in order and without a gap: an operation runs only when all
    the operations before it have been performed.  After that segment
    nothing happens but the closing of the files that a failing [with]
    block held open. *)
Theorem no_operation_skipped `{P : Platform} (w : world ext_state) :
  exists n k,
    labels (trace (Notebook.notebook w))
    = take n Ops.notebook ++ replicate k ".__exit__".
Proof. exact (proj2 (in_order_notebook w)). Qed.

(** ** What an operation's presence tells *)

Section Late.
Context `{P : Platform}.

Lemma absent_of_follows {A} (m : M A) l x w :
  follows m l -> ~ In x l -> ~ In x (labels (trace (m w))).
Proof.
  intros F Hx Hin. apply Hx. apply list_elem_of_In.
  eapply elem_of_sublist; [apply list_elem_of_In; exact Hin | apply F].
Qed.

(** when [x] is not an operation of [m], a run of [m ;; f] that performs
    [x] has come through [m] *)
Lemma bind_late {A B} (m : M A) (f : A -> M B) x :
  (forall w, ~ In x (labels (trace (m w)))) ->
  (forall a w, In x (labels (trace (f a w))) -> is_ok (res (f a w)) = true) ->
  forall w, In x (labels (trace (bind m f w))) -> is_ok (res (bind m f w)) = true.
Proof.
  intros Hm Hf w. rewrite bind_run. destruct (res (m w)) as [a|e]; simpl.
  - unfold labels. rewrite map_app. intros H. apply in_app_or in H as [H|H].
    + destruct (Hm w H).
    + apply Hf. exact H.
  - intros H. destruct (Hm w H).
Qed.

End Late.

(** X3. The container is started only by a run that got through everything
    else: in any run in which the [docker run] command is issued, every
    operation of the notebook has been performed and has succeeded, and the
    run returns. *)
Theorem deploy_only_after_success `{P : Platform} (w : world ext_state) :
  In "!docker" (labels (trace (Notebook.notebook w))) ->
  res (Notebook.notebook w) = Ok tt
  /\ labels (trace (Notebook.notebook w)) = Ops.notebook
  /\ Forall succeeded (trace (Notebook.notebook w)).
Proof.
  intros Hin.
  assert (Hok : is_ok (res (Notebook.notebook w)) = true).
  { revert w Hin. unfold Notebook.notebook.
    apply bind_late.
    { intros w. apply (absent_of_follows _ _ _ _ follows_produce).
      intros H. simpl in H. intuition discriminate. }
    intros folder. apply bind_late.
    { intros w. apply (absent_of_follows _ _ _ _ (follows_config_rewrite folder)).
      intros H. simpl in H. intuition discriminate. }
    intros _. apply bind_late.
    { intros w. unfold Notebook.cell_helper, import_, libcall.
      rewrite prim_run. simpl. intuition discriminate. }
    intros _. apply bind_late.
    { intros w. apply (absent_of_follows _ _ _ _ (follows_load_pipeline _)).
      intros H. simpl in H. intuition discriminate. }
    intros [[tokenizer model] pipe]. apply bind_late.
    { intros w. apply (absent_of_follows _ _ _ _ (follows_baseline _)).
      intros H. simpl in H. intuition discriminate. }
    intros _. apply bind_late.
    { intros w. apply (absent_of_follows _ _ _ _ (follows_cleanup _ _ _)).
      intros H. simpl in H. intuition discriminate. }
    intros _. apply bind_late.
    { intros w. apply (absent_of_follows _ _ _ _ (follows_load_pipeline _)).
      intros H. simpl in H. intuition discriminate. }
    intros [[q_tokenizer q_model] qtq_pipe]. apply bind_late.
    { intros w. apply (absent_of_follows _ _ _ _ (follows_quantized _)).
      intros H. simpl in H. intuition discriminate. }
    intros _ w _. reflexivity. }
  split; [|split].
  - destruct (res (Notebook.notebook w)) as [[]|e]; [reflexivity | discriminate Hok].
  - apply (follows_notebook w). exact Hok.
  - destruct (res (Notebook.notebook w)) as [a|e] eqn:R; [|discriminate Hok].
    exact (proj1 (propagating_notebook w) a R).
Qed.

Section WarmUp.
Context `{P : Platform}.
Import Notebook.

(** a warm-up loop either goes through, or stops at the call that raised *)
Lemma warm_up_shape n pipeline w :
  (res (warm_up n pipeline w) = Ok tt
   /\ length (trace (warm_up n pipeline w)) = n
   /\ Forall (fun ev => ev_call ev = warm_up_call pipeline /\ succeeded ev)
        (trace (warm_up n pipeline w)))
  \/ (exists e, res (warm_up n pipeline w) = Raise e
      /\ Forall (fun ev => ev_call ev = warm_up_call pipeline)
           (trace (warm_up n pipeline w))).
Proof.
  revert w. induction n as [|n IH]; intros w; simpl.
  - left. repeat split. constructor.
  - rewrite bind_run. unfold libcall. rewrite prim_run.
    destruct (lib (Call (Invoke pipeline) [PStr "Warm up"] []) w) as [[v|e] w1];
      cbn [res final trace fst snd].
    + destruct (IH w1) as [(R & L & F)|(e & R & F)].
      * left. rewrite R. simpl. repeat split; [lia|].
        constructor; [split; reflexivity | exact F].
      * right. exists e. rewrite R. split; [reflexivity|].
        constructor; [reflexivity | exact F].
    + right. exists e. split; [reflexivity|]. repeat constructor.
Qed.

End WarmUp.

(** X4. [generate_helper] reads the clock only after all five warm-up calls
    have succeeded: a warm-up call that raises ends the helper before any
    measurement is taken. *)
Theorem clock_read_after_warm_up `{P : Platform} (pipeline : pyval)
  (prompt : string) (w : world ext_state) :
  In "time.time" (labels (trace (Notebook.generate_helper pipeline prompt w))) ->
  exists warm rest,
    trace (Notebook.generate_helper pipeline prompt w) = warm ++ rest
    /\ length warm = 5%nat
    /\ Forall (fun ev => ev_call ev = warm_up_call pipeline /\ succeeded ev) warm.
Proof.
  unfold Notebook.generate_helper. rewrite bind_run.
  destruct (warm_up_shape 5 pipeline w) as [(R & L & F)|(e & R & F)]; rewrite R;
    cbn [res final trace].
  - intros _. eexists _, _. split; [reflexivity | split; assumption].
  - intros H. exfalso. unfold labels in H. apply in_map_iff in H as (ev & Hl & Hev).
    rewrite Forall_forall in F. apply list_elem_of_In in Hev.
    rewrite (F ev Hev) in Hl. discriminate Hl.
Qed.

(** ** The rewrite of [config.json], case by case *)




Section RewriteCases.
Context `{P : Platform}.
Import Notebook.



End RewriteCases.




(** ** Cell 5: [quantize_config.json] is opened before its content exists *)

Ltac not_in_trace :=
  let H := fresh "H" in
  intros H; exfalso; cbn [app In] in H;
  repeat (destruct H as [H|H]; [discriminate H|]); exact H.

(** X8. In the quantize-and-save cell, [quantize_config.json] is opened for
    writing, hence created or emptied, before the quantizer is asked for its
    parameters.  Where [to_dict] leaves that file alone, a run that has
    opened the file and does not reach [json.dump] (the attribute store or
    [to_dict] raised) raises, and leaves the file on disk, empty. *)
Theorem failed_dump_leaves_empty_file `{P : Platform}
  (quantizer model tokenizer : pyval) (model_id : string)
  (w : world ext_state) :
  let path := path_join "quantized_llama" "quantize_config.json" in
  let o := Notebook.cell_quantize_save quantizer model tokenizer model_id w in
  (forall w0, fs (lib (Call (Method quantizer "to_dict") [] []) w0).2 !! path
              = fs w0 !! path) ->
  In (Ev (Call (Func "open") [PStr path; PStr "w"] [("encoding", PStr "utf-8")])
        (Ok (PFile path "w"))) (trace o) ->
  ~ In "json.dump" (labels (trace o)) ->
  (exists e, res o = Raise e) /\ fs (final o) !! path = Some [].
Proof.
  intros path o Hlib. subst o.
  unfold Notebook.cell_quantize_save, import_, libcall. fold path.
  do 6 (forward; [ | not_in_trace ]).
  rewrite bind_run, (with_open_run path "w"). unfold open_. rewrite prim_run.
  unfold open_action.
  destruct (refuses path "w" _) as [e0|]; cbn [res final trace fst snd];
    [not_in_trace|].
  rewrite String.eqb_refl. cbn [res final trace fst snd].
  intros _.
  match goal with |- context [write_file path [] ?w0] =>
    assert (Hempty : fs (write_file path [] w0) !! path = Some [])
      by (unfold write_file; cbn [fs]; apply lookup_insert_eq);
    generalize dependent (write_file path [] w0) end.
  intros wo Hempty.
  unfold setattr, json_dump, libcall.
  rewrite (bind_run (prim _ _)), prim_run.
  destruct quantizer; cbn [res final trace fst snd];
    try (intros _; split; [eexists; reflexivity | exact Hempty]).
  rewrite (bind_run (prim _ _)), prim_run.
  match goal with |- context [set_attr ?h _ _ wo] =>
    pose proof (Hlib (set_attr h "disable_exllama" (PBool false) wo)) as Hd end.
  destruct (lib (Call (Method _ "to_dict") [] []) _) as [[d|e1] wd];
    cbn [res final trace fst snd] in *.
  - rewrite prim_run.
    destruct (if String.eqb "w" "w" then _ else _) as [r wr].
    destruct r; cbn [res final trace fst snd];
      intros Hnd; exfalso; apply Hnd; apply in_map_iff;
      (match goal with |- context [Ev (Call (Func "json.dump") ?a ?k) ?r] =>
         exists (Ev (Call (Func "json.dump") a k) r) end);
      (split; [reflexivity|]);
      cbn [app In]; do 9 right; left; reflexivity.
  - intros _. split; [eexists; reflexivity|]. rewrite Hd. exact Hempty.
Qed.

(** ** The text beyond the prompt *)

Lemma substring_all s : String.substring 0 (String.length s) s = s.
Proof. induction s as [|c s IH]; simpl; [reflexivity | rewrite IH; reflexivity]. Qed.

Lemma substring_none n s : String.substring n 0 s = "".
Proof.
  revert n. induction s as [|c s IH]; intros [|n]; simpl; try reflexivity.
  apply IH.
Qed.

Lemma str_drop_app p g : str_drop (String.length p) (p +:+ g) = g.
Proof.
  unfold str_drop. induction p as [|c p IH]; simpl.
  - rewrite Nat.sub_0_r. apply substring_all.
  - exact IH.
Qed.

Lemma str_drop_short n s : (String.length s <= n)%nat -> str_drop n s = "".
Proof.
  intros H. unfold str_drop. replace (String.length s - n)%nat with 0%nat by lia.
  apply substring_none.
Qed.

Lemma getitem_first v rest : getitem (PList (v :: rest)) (PInt 0) = Ok v.
Proof.
  unfold getitem, norm_index. cbn [length].
  replace ((0 <=? 0)%Z && (0 <? Z.of_nat (S (length rest)))%Z) with true
    by (symmetry; apply andb_true_iff; split; [reflexivity | apply Z.ltb_lt; lia]).
  reflexivity.
Qed.

(** X9. The helper's text is the continuation alone: when the first
    sequence the pipeline returns is the prompt followed by [g], as a
    text-generation pipeline returns it, the text beyond the prompt is
    exactly [g], whatever else the output holds. *)
Theorem text_beyond_strips_prompt (d : list (string * pyval)) (rest : list pyval)
  (prompt g : string) :
  dict_get d "generated_text" = Some (PStr (prompt +:+ g)) ->
  Notebook.text_beyond (PList (PDict d :: rest)) prompt = Ok (PStr g).
Proof.
  intros H. unfold Notebook.text_beyond. rewrite getitem_first.
  unfold getitem. rewrite H. unfold slice_from. rewrite str_drop_app. reflexivity.
Qed.

(** X10. The prompt is cut off by its length, not matched: a generated text
    that is not longer than the prompt gives the empty text and no
    exception. *)
Theorem text_beyond_short_output (d : list (string * pyval)) (rest : list pyval)
  (prompt s : string) :
  dict_get d "generated_text" = Some (PStr s) ->
  (String.length s <= String.length prompt)%nat ->
  Notebook.text_beyond (PList (PDict d :: rest)) prompt = Ok (PStr "").
Proof.
  intros H Hlen. unfold Notebook.text_beyond. rewrite getitem_first.
  unfold getitem. rewrite H. unfold slice_from. rewrite (str_drop_short _ _ Hlen).
  reflexivity.
Qed.

(** ** An output the helper cannot read *)

Ltac which_event H :=
  cbn [app In] in H;
  repeat match type of H with
         | _ \/ _ => destruct H as [H|H]; [try discriminate H | ]
         | False => destruct H
         end.

(** X11. When the timed pipeline call answers with something that has no
    text beyond the prompt to take (an empty list, a first element without
    ["generated_text"], something that is no list), the helper raises what
    that lookup raises, unless the second reading of the clock raised
    first; the tokenizer is not called. *)
Theorem unusable_output_stops_helper `{P : Platform} (pipeline : pyval)
  (prompt : string) (w : world ext_state) (out : pyval) (e : exn) :
  let o := Notebook.generate_helper pipeline prompt w in
  In (Ev (timed_call pipeline prompt) (Ok out)) (trace o) ->
  Notebook.text_beyond out prompt = Raise e ->
  (forall text r, ~ In (Ev (tokenizer_call pipeline text) r) (trace o))
  /\ (res o = Raise e
      \/ exists e', In (Ev clock_call (Raise e')) (trace o) /\ res o = Raise e').
Proof.
  intros o. subst o.
  unfold Notebook.generate_helper, libcall. cbn [Notebook.warm_up]. unfold libcall.
  do 7 (forward; [ | intros H; exfalso; which_event H ]).
  forward.
  - forward.
    + repeat forward;
        intros H Htb; exfalso; unfold ret in H; cbn [trace] in H;
        which_event H; unfold timed_call in H; injection H as <-; congruence.
    + intros H Htb. which_event H. unfold timed_call in H. injection H as <-.
      split; [|left; congruence].
      intros text r H. which_event H.
  - intros H Htb. split.
    + intros text r H'. which_event H'.
    + right. eexists. split; [|reflexivity].
      cbn [app In]. do 7 right. left. reflexivity.
Qed.

(** ** The report of a benchmark *)

Section Report.
Context `{P : Platform}.
Import Notebook.

Lemma generate_helper_result pipeline prompt w r :
  res (generate_helper pipeline prompt w) = Ok r ->
  exists text latency, r = PDict [("text", text); ("latency", PStr latency)].
Proof.
  intros H. apply runs_intro in H. revert H.
  generalize (final (generate_helper pipeline prompt w))
             (trace (generate_helper pipeline prompt w)).
  intros w' t H. unfold generate_helper, libcall in H.
  run_inv. subst. eauto.
Qed.

End Report.

(** X12. What the helper returns is what the report reads: after a helper
    that returned, the three prints of the benchmark cell go through
    exactly when [torch.cuda.memory_allocated] answers with a number; the
    lookups of ["latency"] and ["text"] cannot fail. *)
Theorem report_accepts_helper_result `{P : Platform} (pipeline : pyval)
  (prompt : string) (w w1 : world ext_state) (r : pyval) :
  res (Notebook.generate_helper pipeline prompt w) = Ok r ->
  res (Notebook.report r w1) = Ok PNone
  <-> exists allocated gb,
        (lib (Call (Func "torch.cuda.memory_allocated") [] []) w1).1 = Ok allocated
        /\ py_truediv allocated (1024 ^ 3) = Ok gb.
Proof.
  intros H. apply generate_helper_result in H as (text & latency & ->).
  unfold Notebook.report, print, libcall.
  rewrite bind_run, lift_run. cbn [getitem dict_get String.eqb Ascii.eqb Bool.eqb].
  cbn [res final trace].
  rewrite bind_run, prim_run. cbn [res final trace fst snd].
  rewrite bind_run, prim_run.
  destruct (lib (Call (Func "torch.cuda.memory_allocated") [] []) w1)
    as [[allocated|e] w2]; cbn [res final trace fst snd].
  - rewrite bind_run, lift_run.
    destruct (py_truediv allocated (1024 ^ 3)) as [gb|e] eqn:E;
      cbn [res final trace fst snd].
    + rewrite bind_run, prim_run. cbn [res final trace fst snd].
      rewrite bind_run, lift_run.
      cbn [getitem dict_get String.eqb Ascii.eqb Bool.eqb res final trace].
      rewrite prim_run. cbn [res]. split; [eauto | reflexivity].
    + split; [discriminate|]. intros (a & gb & [= <-] & Hgb). congruence.
  - split; [discriminate|]. intros (a & gb & Ha & _). discriminate Ha.
Qed.

(** ** Which pipeline a benchmark measures *)

Section OwnPipeline.
Context `{P : Platform}.
Import Notebook.

Lemma own_warm_up n pipeline : emits (on_pipeline pipeline) (warm_up n pipeline).
Proof.
  induction n as [|n IH]; simpl.
  - apply emits_ret.
  - apply emits_bind; [|intros; exact IH]. unfold libcall. apply emits_prim.
    intros r. reflexivity.
Qed.

Lemma own_generate_helper pipeline prompt :
  emits (on_pipeline pipeline) (generate_helper pipeline prompt).
Proof.
  unfold generate_helper. apply emits_bind; [apply own_warm_up | intros].
  emits_all ltac:(exact I || reflexivity).
Qed.

Lemma own_report pipeline r : emits (on_pipeline pipeline) (report r).
Proof. unfold report. emits_all ltac:(exact I). Qed.

Lemma own_baseline pipe : emits (on_pipeline pipe) (cell_baseline pipe).
Proof.
  unfold cell_baseline.
  apply emits_bind; [unfold import_, libcall; apply emits_prim; intros; exact I|].
  intros. apply emits_bind; [apply own_generate_helper | intros].
  apply emits_bind; [apply own_report | intros; apply emits_ret].
Qed.

Lemma own_quantized pipe : emits (on_pipeline pipe) (cell_quantized pipe).
Proof.
  unfold cell_quantized.
  apply emits_bind; [apply own_generate_helper | intros].
  apply emits_bind; [apply own_report | intros; apply emits_ret].
Qed.

Lemma emits_runs {A} Q (m : M A) w a w' t : emits Q m -> runs m w a w' t -> Forall Q t.
Proof. intros E R. destruct (runs_res _ _ _ _ _ R) as (_ & _ & <-). apply E. Qed.

End OwnPipeline.

(** X13. Each benchmark measures the pipeline that was loaded for it.  In a
    run that returns, the baseline benchmark calls only the pipeline built
    from the model and tokenizer loaded from the hub id; these three are
    deleted; the second benchmark calls only the pipeline built from the
    model and tokenizer loaded from ["quantized_llama"]; the deploy command
    follows. *)
Theorem each_benchmark_on_its_own_pipeline `{P : Platform} (w : world ext_state) :
  res (Notebook.notebook w) = Ok tt ->
  exists before r1 r2 tokenizer model pipe bench1 r
         r3 r4 q_tokenizer q_model qtq_pipe bench2 after,
    trace (Notebook.notebook w)
    = before
      ++ load_pipeline_events Notebook.hub_model_id r1 r2 tokenizer model pipe
      ++ bench1
      ++ cleanup_events pipe model tokenizer r
      ++ load_pipeline_events "quantized_llama" r3 r4 q_tokenizer q_model qtq_pipe
      ++ bench2
      ++ after
    /\ labels bench1 = Ops.baseline /\ Forall (on_pipeline pipe) bench1
    /\ labels bench2 = Ops.quantized /\ Forall (on_pipeline qtq_pipe) bench2
    /\ labels after = Ops.deploy.
Proof.
  intros Hok. apply runs_intro in Hok. revert Hok.
  generalize (final (Notebook.notebook w)) (trace (Notebook.notebook w)).
  intros w' t H. unfold Notebook.notebook in H.
  apply runs_bind_inv in H as (folder & w1 & t1 & ? & H1 & H & ->).
  apply runs_bind_inv in H as (? & w2 & t2 & ? & H2 & H & ->).
  apply runs_bind_inv in H as (? & w3 & t3 & ? & H3 & H & ->).
  apply runs_bind_inv in H as ([[tokenizer model] pipe] & w4 & t4 & ? & H4 & H & ->).
  apply runs_bind_inv in H as (? & w5 & t5 & ? & H5 & H & ->).
  apply runs_bind_inv in H as (r & w6 & t6 & ? & H6 & H & ->).
  apply runs_bind_inv in H
    as ([[q_tokenizer q_model] qtq_pipe] & w7 & t7 & ? & H7 & H & ->).
  apply runs_bind_inv in H as (? & w8 & t8 & ? & H8 & H & ->).
  apply runs_bind_inv in H as (? & w9 & t9 & ? & H9 & H & ->).
  apply runs_ret_inv in H as (_ & _ & ->).
  apply load_pipeline_runs in H4 as (r1 & r2 & ->).
  apply load_pipeline_runs in H7 as (r3 & r4 & ->).
  apply cleanup_runs in H6 as ->.
  exists (t1 ++ t2 ++ t3), r1, r2, tokenizer, model, pipe, t5, (Ok r),
    r3, r4, q_tokenizer, q_model, qtq_pipe, t8, t9.
  split; [rewrite <- !app_assoc; rewrite app_nil_r; reflexivity|].
  split; [exact (follows_runs _ _ _ _ _ _ (follows_baseline _) H5)|].
  split; [exact (emits_runs _ _ _ _ _ _ (own_baseline pipe) H5)|].
  split; [exact (follows_runs _ _ _ _ _ _ (follows_quantized _) H8)|].
  split; [exact (emits_runs _ _ _ _ _ _ (own_quantized qtq_pipe) H8)|].
  exact (follows_runs _ _ _ _ _ _ follows_deploy H9).
Qed.

(** ** The further theorems at work on the demonstration platforms *)

Module WitnessMore.
Import Notebook.

Ltac find_in := vm_compute; repeat first [ left; reflexivity | right ].

Lemma deploy_only_after_success_witness :
  res (Demo.run Demo.usual notebook) = Ok tt
  /\ Forall succeeded (trace (Demo.run Demo.usual notebook)).
Proof.
  destruct (deploy_only_after_success (P := Demo.platform Demo.usual) Demo.start)
    as (Hres & _ & Hall).
  - find_in.
  - split; [exact Hres | exact Hall].
Defined.

Lemma clock_read_after_warm_up_witness :
  exists warm rest,
    trace (Demo.run Demo.usual (generate_helper (PObj 0) "Hi")) = warm ++ rest
    /\ length warm = 5%nat
    /\ Forall succeeded warm.
Proof.
  destruct (clock_read_after_warm_up (P := Demo.platform Demo.usual)
              (PObj 0) "Hi" Demo.start)
    as (warm & rest & Ht & Hlen & Hall).
  - find_in.
  - exists warm, rest. split; [exact Ht | split; [exact Hlen|]].
    eapply Forall_impl; [exact Hall | intros ev [_ Hs]; exact Hs].
Defined.



Lemma failed_dump_leaves_empty_file_witness :
  let o := Demo.run Demo.out_of_memory
             (cell_quantize_save (PObj 0) (PObj 1) (PObj 2) "m") in
  (exists e, res o = Raise e)
  /\ fs (final o) !! "quantized_llama/quantize_config.json" = Some [].
Proof.
  apply (failed_dump_leaves_empty_file (P := Demo.platform Demo.out_of_memory)
           (PObj 0) (PObj 1) (PObj 2) "m" Demo.start).
  - intros w0. reflexivity.
  - find_in.
  - vm_compute. intuition discriminate.
Defined.

Lemma text_beyond_strips_prompt_witness :
  text_beyond (PList [PDict [("generated_text", PStr "Hi there")]]) "Hi"
  = Ok (PStr " there").
Proof.
  apply (text_beyond_strips_prompt [("generated_text", PStr "Hi there")] []
           "Hi" " there").
  reflexivity.
Defined.

Lemma text_beyond_short_output_witness :
  text_beyond (PList [PDict [("generated_text", PStr "Hi")]]) "Hi there"
  = Ok (PStr "").
Proof.
  apply (text_beyond_short_output [("generated_text", PStr "Hi")] []
           "Hi there" "Hi"); [reflexivity | simpl; lia].
Defined.

Lemma unusable_output_stops_helper_witness :
  let o := @generate_helper DemoMore.speechless_platform (PObj 0) "Hi" Demo.start in
  (forall text r, ~ In (Ev (tokenizer_call (PObj 0) text) r) (trace o))
  /\ (res o = Raise IndexError
      \/ exists e', In (Ev clock_call (Raise e')) (trace o) /\ res o = Raise e').
Proof.
  apply (unusable_output_stops_helper (P := DemoMore.speechless_platform)
           (PObj 0) "Hi" Demo.start (PList []) IndexError).
  - find_in.
  - reflexivity.
Defined.

Lemma report_accepts_helper_result_witness :
  res (@report (Demo.platform Demo.usual)
         (PDict [("text", PStr "Write a request for PTO");
                 ("latency", PStr "125.00ms/token")]) Demo.start)
  = Ok PNone.
Proof.
  apply (report_accepts_helper_result (P := Demo.platform Demo.usual)
           (PObj 0) "Hi" Demo.start Demo.start).
  - vm_compute. reflexivity.
  - eexists _, _. split; vm_compute; reflexivity.
Defined.

Lemma each_benchmark_on_its_own_pipeline_witness :
  exists before pipe bench1 middle qtq_pipe bench2 after,
    trace (Demo.run Demo.usual notebook)
    = before ++ bench1 ++ middle ++ bench2 ++ after
    /\ Forall (on_pipeline pipe) bench1
    /\ Forall (on_pipeline qtq_pipe) bench2.
Proof.
  destruct (each_benchmark_on_its_own_pipeline (P := Demo.platform Demo.usual)
              Demo.start)
    as (before & r1 & r2 & tokenizer & model & pipe & bench1 & r & r3 & r4
        & q_tokenizer & q_model & qtq_pipe & bench2 & after
        & Ht & _ & H1 & _ & H2 & _).
  - vm_compute. reflexivity.
  - exists (before ++ load_pipeline_events hub_model_id r1 r2 tokenizer model pipe),
      pipe, bench1,
      (cleanup_events pipe model tokenizer r
       ++ load_pipeline_events "quantized_llama" r3 r4 q_tokenizer q_model qtq_pipe),
      qtq_pipe, bench2, after.
    split; [|split; [exact H1 | exact H2]].
    unfold Demo.run. rewrite <- !app_assoc. exact Ht.
Defined.

End WitnessMore.
